(** * Language configuration and word-list loading: a shallow embedding

    This development embeds [core/language_config.py] and
    [core/word_loader.py] and proves the properties their specification
    states about them.

    - Python values (what [json.load] yields, plus tuples) are the inductive
      type [value]; a [dict] is an association list in insertion order.
    - A [pathlib.Path] is modelled after [PurePosixPath]: an anchor and the
      list of names below it.
    - The filesystem is what the operating system answers at each path: the
      node found there, or the error number of the failed lookup. The code
      reads it through the effects [path_exists] and [open_read], which are
      logged, so that a statement can say which paths were consulted. Error
      numbers are those of Linux.
    - Exceptions are the left summand of the result of a computation.
    - [json.load] is a parameter of the loaders: a function from the bytes
      of a file to a decoded value or a decoding error. *)

From Stdlib Require Import String Ascii List ZArith Bool Lia.
Import ListNotations.
Local Open Scope string_scope.
Set Warnings "-register-all".

(** ** Python values *)

Inductive value : Type :=
| VNone
| VBool (b : bool)
| VInt (n : Z)
| VFloat (bits : Z)                      (* the IEEE-754 binary64 pattern *)
| VStr (s : string)
| VList (items : list value)
| VTuple (items : list value)
| VDict (entries : list (string * value)).

(** [isinstance(v, list)] and [isinstance(v, dict)]. *)
Definition is_list (v : value) : bool :=
  match v with VList _ => true | _ => false end.

Definition is_dict (v : value) : bool :=
  match v with VDict _ => true | _ => false end.

(** ** Dictionaries with string keys, in insertion order *)

Module Dict.

Definition t := list (string * value).

Fixpoint get (k : string) (d : t) : option value :=
  match d with
  | [] => None
  | (k', v) :: d' => if String.eqb k k' then Some v else get k d'
  end.

(** [k in d] *)
Definition contains (k : string) (d : t) : bool :=
  match get k d with Some _ => true | None => false end.

(** [d[k] = v]: an existing key keeps its place, a new one goes last. *)
Fixpoint set (k : string) (v : value) (d : t) : t :=
  match d with
  | [] => [(k, v)]
  | (k', v') :: d' =>
      if String.eqb k k' then (k', v) :: d' else (k', v') :: set k v d'
  end.

Definition keys (d : t) : list string := map fst d.

End Dict.

(** ** Exceptions and results *)

Inductive exn : Type :=
| FileNotFoundError (msg : string)
| IsADirectoryError
| OSError (errno : Z)          (* any other [OSError], by its error number *)
| UnicodeDecodeError
| JSONDecodeError
| ValueError (msg : string)
| RecursionError
| TypeError
| KeyError (key : string)
| NotImplementedError (msg : string).

(** [isinstance(e, OSError)] and [isinstance(e, ValueError)]: the classes
    Python derives from the two. *)
Definition is_os_error (e : exn) : bool :=
  match e with
  | FileNotFoundError _ | IsADirectoryError | OSError _ => true
  | _ => false
  end.

Definition is_value_error (e : exn) : bool :=
  match e with
  | ValueError _ | JSONDecodeError | UnicodeDecodeError => true
  | _ => false
  end.

Definition result (A : Type) : Type := (exn + A)%type.

Definition is_not_found {A} (r : result A) : bool :=
  match r with inl (FileNotFoundError _) => true | _ => false end.

(** ** Paths (after [pathlib.PurePosixPath]) *)

Record Path : Type := mkPath {
  anchor : string;          (* "", "/" or "//" *)
  names : list string       (* the components below the anchor *)
}.

Definition Path_eqb (p q : Path) : bool :=
  String.eqb (anchor p) (anchor q)
  && (if list_eq_dec string_dec (names p) (names q) then true else false).

(** [p.parent]: the path without its last name; an anchor or [Path('.')]
    is its own parent. *)
Definition parent (p : Path) : Path :=
  mkPath (anchor p) (removelast (names p)).

(** [s.split('/')] *)
Fixpoint split_sep (s : string) : list string :=
  match s with
  | EmptyString => [EmptyString]
  | String c s' =>
      if Ascii.eqb c "/"%char then EmptyString :: split_sep s'
      else match split_sep s' with
           | [] => [String c EmptyString]
           | w :: ws => String c w :: ws
           end
  end.

(** The number of leading separators of [s], and [s.lstrip('/')]. *)
Fixpoint leading_seps (s : string) : nat :=
  match s with
  | String c s' => if Ascii.eqb c "/"%char then S (leading_seps s') else 0
  | EmptyString => 0
  end.

Fixpoint lstrip_sep (s : string) : string :=
  match s with
  | String c s' => if Ascii.eqb c "/"%char then lstrip_sep s' else s
  | EmptyString => EmptyString
  end.

(** [splitroot]: exactly two leading slashes are kept as the anchor "//",
    any other positive number collapses to "/". *)
Definition splitroot (s : string) : string * string :=
  match leading_seps s with
  | 0 => ("", s)
  | 2 => ("//", lstrip_sep s)
  | _ => ("/", lstrip_sep s)
  end.

Definition keep_name (x : string) : bool :=
  negb (String.eqb x "") && negb (String.eqb x ".").

(** [Path(s)] *)
Definition parse_path (s : string) : Path :=
  let (r, rel) := splitroot s in
  mkPath r (filter keep_name (split_sep rel)).

(** [p / s]: an anchored right operand replaces the left one. *)
Definition joinpath (p : Path) (s : string) : Path :=
  let q := parse_path s in
  if String.eqb (anchor q) "" then mkPath (anchor p) (names p ++ names q)
  else q.

(** [str(p)] *)
Definition path_str (p : Path) : string :=
  match anchor p, names p with
  | "", [] => "."
  | a, ns => a ++ String.concat "/" ns
  end.

(** ** The filesystem and the effects of the loaders *)

Inductive node : Type :=
| Dir
| File (content : string)
| Unreadable.                (* a file that [open] refuses with EACCES *)

(** What [os.stat] answers at a path: the node it finds, the error number
    it fails with, or the [ValueError] of a path that cannot be encoded. *)
Inductive lookup : Type :=
| Found (n : node)
| StatError (errno : Z)
| NotEncodable.

Record filesystem : Type := mkFilesystem {
  answer : Path -> lookup
}.

(** The node at a path, if one is found. A filesystem is used as this
    function. *)
Definition found (fs : filesystem) (p : Path) : option node :=
  match answer fs p with
  | Found n => Some n
  | StatError _ | NotEncodable => None
  end.

Coercion found : filesystem >-> Funclass.

Definition ENOENT : Z := 2.
Definition EBADF : Z := 9.
Definition EACCES : Z := 13.
Definition ENOTDIR : Z := 20.
Definition ENAMETOOLONG : Z := 36.
Definition ELOOP : Z := 40.

(** [pathlib._ignore_error]: the failures of [os.stat] that [exists()]
    turns into [False]. *)
Definition ignored_errno (errno : Z) : bool :=
  (errno =? ENOENT)%Z || (errno =? ENOTDIR)%Z
  || (errno =? EBADF)%Z || (errno =? ELOOP)%Z.

(** What [p.exists()] answers: [True] when a node is found, [False] when
    the lookup fails with an ignored error number or the path cannot be
    encoded; any other [OSError] is raised again. *)
Definition exists_answer (fs : filesystem) (p : Path) : result bool :=
  match answer fs p with
  | Found _ => inr true
  | StatError errno =>
      if ignored_errno errno then inr false else inl (OSError errno)
  | NotEncodable => inr false
  end.

(** [p.exists()] answers [False]. *)
Definition is_absent (fs : filesystem) (p : Path) : bool :=
  match exists_answer fs p with
  | inr false => true
  | _ => false
  end.

(** What [open(p, 'r')] and reading give. *)
Definition open_answer (fs : filesystem) (p : Path) : result string :=
  match answer fs p with
  | Found (File content) => inr content
  | Found Dir => inl IsADirectoryError
  | Found Unreadable => inl (OSError EACCES)
  | StatError errno =>
      if (errno =? ENOENT)%Z then
        inl (FileNotFoundError
               ("[Errno 2] No such file or directory: '" ++ path_str p ++ "'"))
      else inl (OSError errno)
  | NotEncodable => inl (ValueError "embedded null byte")
  end.

Inductive fs_event : Type :=
| Exists (p : Path)
| Open (p : Path).

(** A computation reads the filesystem, logs what it consulted and either
    raises or returns. *)
Definition IO (A : Type) : Type := filesystem -> result A * list fs_event.

Class Monad (M : Type -> Type) : Type := {
  ret : forall {A}, A -> M A;
  bind : forall {A B}, M A -> (A -> M B) -> M B;
  raise : forall {A}, exn -> M A
}.

#[export] Instance Monad_result : Monad result := {
  ret _ a := inr a;
  bind _ _ m k := match m with inl e => inl e | inr a => k a end;
  raise _ e := inl e
}.

#[export] Instance Monad_IO : Monad IO := {
  ret _ a := fun _ => (inr a, []);
  bind _ _ m k := fun fs =>
    match m fs with
    | (inl e, t) => (inl e, t)
    | (inr a, t) => let (r, t') := k a fs in (r, (t ++ t')%list)
    end;
  raise _ e := fun _ => (inl e, [])
}.

Declare Scope monad_scope.
Delimit Scope monad_scope with monad.
Notation "x <- m ;; k" := (bind m (fun x => k))
  (at level 100, m at next level, right associativity) : monad_scope.
Local Open Scope monad_scope.

(** A pure step that may raise, inside a computation. *)
Definition lift {A} (r : result A) : IO A := fun _ => (r, []).

Definition eval {A} (m : IO A) (fs : filesystem) : result A := fst (m fs).
Definition trace {A} (m : IO A) (fs : filesystem) : list fs_event := snd (m fs).

(** [p.exists()] *)
Definition path_exists (p : Path) : IO bool :=
  fun fs => (exists_answer fs p, [Exists p]).

(** [open(p, 'r', encoding='utf-8')], handing over the bytes of the file. *)
Definition open_read (p : Path) : IO string :=
  fun fs => (open_answer fs p, [Open p]).

(** How [json.load] can fail on the bytes of a file: bytes that are not
    UTF-8, text that is not JSON, a [ValueError] of its own (an integer of
    more than 4300 digits), nesting too deep for the interpreter. *)
Inductive decode_error : Type :=
| BadUnicode
| BadJSON
| BadValue (msg : string)
| TooDeep.

Definition exn_of_decode_error (e : decode_error) : exn :=
  match e with
  | BadUnicode => UnicodeDecodeError
  | BadJSON => JSONDecodeError
  | BadValue msg => ValueError msg
  | TooDeep => RecursionError
  end.

Definition decoder : Type := string -> decode_error + value.

Definition run_decoder (json_load : decoder) (text : string) : IO value :=
  lift (match json_load text with
        | inl e => inl (exn_of_decode_error e)
        | inr v => inr v
        end).

(** ** The operations of Python the loaders apply to decoded data *)

(** [key in data] for a string [key]: a key of a dict, an element of a list
    or tuple, a substring of a string; other values are not iterable. *)
Definition py_contains (key : string) (data : value) : result bool :=
  let is_key (x : value) :=
    match x with VStr s => String.eqb s key | _ => false end in
  match data with
  | VDict d => inr (Dict.contains key d)
  | VList items | VTuple items => inr (existsb is_key items)
  | VStr s => inr (match String.index 0 key s with Some _ => true | None => false end)
  | VNone | VBool _ | VInt _ | VFloat _ => inl TypeError
  end.

(** [data[key]] for a string [key]. *)
Definition py_getitem (data : value) (key : string) : result value :=
  match data with
  | VDict d =>
      match Dict.get key d with
      | Some v => inr v
      | None => inl (KeyError key)
      end
  | _ => inl TypeError
  end.

(** [data[key] = v] for a string [key]. *)
Definition py_setitem (data : value) (key : string) (v : value) : result value :=
  match data with
  | VDict d => inr (VDict (Dict.set key v d))
  | _ => inl TypeError
  end.

(** The code points of a string kept in UTF-8: a byte [10xxxxxx] continues
    the character before it. *)
Definition is_continuation (c : ascii) : bool :=
  let n := nat_of_ascii c in (128 <=? n)%nat && (n <? 192)%nat.

Definition continues (s : string) : bool :=
  match s with
  | String c _ => is_continuation c
  | EmptyString => false
  end.

Fixpoint utf8_chars (s : string) : list string :=
  match s with
  | EmptyString => []
  | String c s' =>
      if continues s' then
        match utf8_chars s' with
        | ch :: chs => String c ch :: chs
        | [] => [String c EmptyString]
        end
      else String c EmptyString :: utf8_chars s'
  end.

(** [list(v)] *)
Definition py_list (v : value) : result (list value) :=
  match v with
  | VList items | VTuple items => inr items
  | VStr s => inr (map VStr (utf8_chars s))
  | VDict d => inr (map VStr (Dict.keys d))
  | VNone | VBool _ | VInt _ | VFloat _ => inl TypeError
  end.

(** ** [core/word_loader.py] *)

Module WordLoader.

Record t : Type := mk {
  data_path : Path;
  shared_words_path : option string
}.

(** The sampling loop of [validate_data]: leave with [False] at the first
    item that is not a dict. *)
Fixpoint all_dicts (items : list value) : bool :=
  match items with
  | [] => true
  | item :: rest => if negb (is_dict item) then false else all_dicts rest
  end.

Definition validate_data (data : value) : bool :=
  match data with
  | VList items =>
      if (length items =? 0)%nat then false
      else all_dicts (firstn (Nat.min 10 (length items)) items)
  | _ => false
  end.

(** The shared word list [_get_target_path] looks for: [s] below the
    directory two levels above [data_path]. *)
Definition shared_candidate (self : t) (s : string) : Path :=
  joinpath (parent (parent (data_path self))) s.

(** [if self.shared_words_path:] holds for a string that is not empty. *)
Definition _get_target_path (self : t) : IO Path :=
  match shared_words_path self with
  | Some s =>
      if negb (String.eqb s "") then
        let languages_dir := parent (parent (data_path self)) in
        let shared_path := joinpath languages_dir s in
        found <- path_exists shared_path ;;
        if found : bool then ret shared_path else ret (data_path self)
      else ret (data_path self)
  | None => ret (data_path self)
  end.

Section WithDecoder.

Variable json_load : decoder.

Definition load_json (self : t) : IO value :=
  target_path <- _get_target_path self ;;
  found <- path_exists target_path ;;
  if negb found then
    raise (FileNotFoundError ("词库文件不存在: " ++ path_str target_path))
  else
    text <- open_read target_path ;;
    data <- run_decoder json_load text ;;
    if negb (validate_data data) then
      raise (ValueError ("词库数据格式无效: " ++ path_str (data_path self)))
    else ret data.

End WithDecoder.

Definition load_csv (self : t) (delimiter : string) : IO value :=
  raise (NotImplementedError "CSV 加载功能尚未实现").

End WordLoader.

(** ** [core/language_config.py] *)

Module LanguageConfig.

(** The dataclass checks no field type: every field holds whatever value
    it was given. *)
Record t : Type := mk {
  lang_id : value;
  lang_name : value;
  fonts : value;
  styles : value;
  card_size : value;
  theme_colors : value;
  level_filter : value;
  shared_words_path : value
}.

Definition field_names : list string :=
  ["lang_id"; "lang_name"; "fonts"; "styles";
   "card_size"; "theme_colors"; "level_filter"; "shared_words_path"].

Definition required_fields : list string :=
  ["lang_id"; "lang_name"; "fonts"; "styles"].

Definition default_card_size : value := VTuple [VInt 432; VInt 540].

Definition is_field (k : string) : bool := existsb (String.eqb k) field_names.

Definition or_default (o : option value) (default : value) : value :=
  match o with Some v => v | None => default end.

(** The call of [cls] with the entries of [data] as keywords: the
    generated [__init__] refuses a keyword that is not
    a field and the absence of a field without default. *)
Definition construct (data : value) : result t :=
  match data with
  | VDict d =>
      if negb (forallb is_field (Dict.keys d)) then inl TypeError
      else
        match Dict.get "lang_id" d, Dict.get "lang_name" d,
              Dict.get "fonts" d, Dict.get "styles" d with
        | Some i, Some n, Some f, Some s =>
            inr {| lang_id := i; lang_name := n; fonts := f; styles := s;
                   card_size := or_default (Dict.get "card_size" d) default_card_size;
                   theme_colors := or_default (Dict.get "theme_colors" d) (VList []);
                   level_filter := or_default (Dict.get "level_filter" d) (VStr "all");
                   shared_words_path := or_default (Dict.get "shared_words_path" d) VNone |}
        | _, _, _, _ => inl TypeError
        end
  | _ => inl TypeError
  end.

(** The JSON objects [construct] accepts: no key that is not a field, and
    every field without default. *)
Definition well_formed (d : Dict.t) : bool :=
  forallb is_field (Dict.keys d)
  && forallb (fun k => Dict.contains k d) required_fields.

(** [if 'card_size' in data and isinstance(data['card_size'], list):
       data['card_size'] = tuple(data['card_size'])] *)
Definition convert_card_size (data : value) : result value :=
  present <- py_contains "card_size" data ;;
  if present : bool then
    cs <- py_getitem data "card_size" ;;
    match cs with
    | VList items => py_setitem data "card_size" (VTuple items)
    | _ => ret data
    end
  else ret data.

(** [if key not in data: data[key] = default] *)
Definition fill_default (key : string) (default : value) (data : value)
  : result value :=
  present <- py_contains key data ;;
  if negb present then py_setitem data key default else ret data.

Definition apply_defaults (data : value) : result value :=
  data <- convert_card_size data ;;
  data <- fill_default "theme_colors" (VList []) data ;;
  data <- fill_default "level_filter" (VStr "all") data ;;
  fill_default "shared_words_path" VNone data.

Section WithDecoder.

Variable json_load : decoder.

Definition from_json (config_path : Path) : IO t :=
  found <- path_exists config_path ;;
  if negb found then
    raise (FileNotFoundError ("配置文件不存在: " ++ path_str config_path))
  else
    text <- open_read config_path ;;
    data <- run_decoder json_load text ;;
    lift (data <- apply_defaults data ;; construct data).

End WithDecoder.

Definition to_dict (self : t) : result value :=
  size <- py_list (card_size self) ;;
  ret (VDict [("lang_id", lang_id self);
              ("lang_name", lang_name self);
              ("fonts", fonts self);
              ("styles", styles self);
              ("card_size", VList size);
              ("theme_colors", theme_colors self)]).

End LanguageConfig.

(** ** A decoder to run the loaders with

    The loaders are parametrised by the decoder, and every statement below
    holds for any decoder. To run them on the bytes of concrete files, here
    is a decoder of a fragment of JSON: [null], [true], [false], integers
    of at most 4300 digits, strings without escapes, arrays and objects; it
    answers [BadJSON] on everything else. A key that occurs twice keeps its
    first place and its last value, as in a Python dict. *)

Module JsonLite.

Definition is_ws (c : ascii) : bool :=
  let n := nat_of_ascii c in
  (n =? 32)%nat || (n =? 9)%nat || (n =? 10)%nat || (n =? 13)%nat.

Fixpoint skip_ws (s : string) : string :=
  match s with
  | String c s' => if is_ws c then skip_ws s' else s
  | EmptyString => EmptyString
  end.

Fixpoint strip_prefix (p s : string) : option string :=
  match p, s with
  | EmptyString, _ => Some s
  | String a p', String b s' =>
      if Ascii.eqb a b then strip_prefix p' s' else None
  | String _ _, EmptyString => None
  end.

Definition is_digit (c : ascii) : bool :=
  let n := nat_of_ascii c in (48 <=? n)%nat && (n <=? 57)%nat.

(** The value of the leading digits after [acc], how many there were, and
    what follows them. *)
Fixpoint read_digits (acc : Z) (count : nat) (s : string) : Z * nat * string :=
  match s with
  | String c s' =>
      if is_digit c
      then read_digits (10 * acc + Z.of_nat (nat_of_ascii c - 48)) (S count) s'
      else (acc, count, s)
  | EmptyString => (acc, count, s)
  end.

(** After an opening quote: the characters up to the closing quote; an
    escape or a control character is outside the fragment. *)
Fixpoint read_string (s : string) : option (string * string) :=
  match s with
  | EmptyString => None
  | String c s' =>
      if Ascii.eqb c "034"%char then Some (EmptyString, s')
      else if Ascii.eqb c "\"%char || (nat_of_ascii c <? 32)%nat then None
      else match read_string s' with
           | Some (body, rest) => Some (String c body, rest)
           | None => None
           end
  end.

(** Digits without sign: at least one, at most 4300, and no zero before
    another digit. *)
Definition read_natural (s : string) : option (Z * string) :=
  match read_digits 0 0 s with
  | (_, O, _) => None
  | (n, 1%nat, rest) => Some (n, rest)
  | (n, count, rest) =>
      if (4300 <? count)%nat then None
      else match s with
           | String "0" _ => None
           | _ => Some (n, rest)
           end
  end.

Definition read_number (s : string) : option (value * string) :=
  match s with
  | String "-" s' =>
      match read_natural s' with
      | Some (n, rest) => Some (VInt (- n), rest)
      | None => None
      end
  | _ =>
      match read_natural s with
      | Some (n, rest) => Some (VInt n, rest)
      | None => None
      end
  end.

Definition or_last (key : string) (v : value) (later : Dict.t) : value :=
  match Dict.get key later with Some v' => v' | None => v end.

Definition remove_key (key : string) (d : Dict.t) : Dict.t :=
  filter (fun kv => negb (String.eqb key (fst kv))) d.

Fixpoint parse_value (fuel : nat) (s : string) : option (value * string) :=
  match fuel with
  | O => None
  | S fuel' =>
      match skip_ws s with
      | String "[" rest =>
          match skip_ws rest with
          | String "]" rest' => Some (VList [], rest')
          | _ =>
              match parse_items fuel' rest with
              | Some (items, rest') => Some (VList items, rest')
              | None => None
              end
          end
      | String "{" rest =>
          match skip_ws rest with
          | String "}" rest' => Some (VDict [], rest')
          | _ =>
              match parse_members fuel' rest with
              | Some (d, rest') => Some (VDict d, rest')
              | None => None
              end
          end
      | String "034" rest =>
          match read_string rest with
          | Some (body, rest') => Some (VStr body, rest')
          | None => None
          end
      | s0 =>
          match strip_prefix "null" s0, strip_prefix "true" s0,
                strip_prefix "false" s0 with
          | Some rest, _, _ => Some (VNone, rest)
          | _, Some rest, _ => Some (VBool true, rest)
          | _, _, Some rest => Some (VBool false, rest)
          | None, None, None => read_number s0
          end
      end
  end
with parse_items (fuel : nat) (s : string) : option (list value * string) :=
  match fuel with
  | O => None
  | S fuel' =>
      match parse_value fuel' s with
      | Some (v, rest) =>
          match skip_ws rest with
          | String "," rest' =>
              match parse_items fuel' rest' with
              | Some (vs, rest'') => Some (v :: vs, rest'')
              | None => None
              end
          | String "]" rest' => Some ([v], rest')
          | _ => None
          end
      | None => None
      end
  end
with parse_members (fuel : nat) (s : string) : option (Dict.t * string) :=
  match fuel with
  | O => None
  | S fuel' =>
      match skip_ws s with
      | String "034" rest =>
          match read_string rest with
          | Some (key, rest1) =>
              match skip_ws rest1 with
              | String ":" rest2 =>
                  match parse_value fuel' rest2 with
                  | Some (v, rest3) =>
                      match skip_ws rest3 with
                      | String "," rest4 =>
                          match parse_members fuel' rest4 with
                          | Some (d, rest5) =>
                              Some ((key, or_last key v d)
                                      :: remove_key key d, rest5)
                          | None => None
                          end
                      | String "}" rest4 => Some ([(key, v)], rest4)
                      | _ => None
                      end
                  | None => None
                  end
              | _ => None
              end
          | None => None
          end
      | _ => None
      end
  end.

Definition json_load : decoder :=
  fun text =>
    match parse_value (2 * String.length text + 2) text with
    | Some (v, rest) =>
        match skip_ws rest with
        | EmptyString => inr v
        | _ => inl BadJSON
        end
    | None => inl BadJSON
    end.

End JsonLite.

(** ** A sample language directory *)

Module Sample.

Fixpoint lookup_node (nodes : list (Path * node)) (p : Path) : option node :=
  match nodes with
  | [] => None
  | (q, n) :: rest => if Path_eqb p q then Some n else lookup_node rest p
  end.

(** A filesystem given by the list of its nodes: a path with a name of more
    than 255 bytes fails with ENAMETOOLONG, any other path without node with
    ENOENT. *)
Definition disk (nodes : list (Path * node)) : filesystem :=
  mkFilesystem
    (fun p =>
       if existsb (fun name => (255 <? String.length name)%nat) (names p)
       then StatError ENAMETOOLONG
       else match lookup_node nodes p with
            | Some n => Found n
            | None => StatError ENOENT
            end).

(** A name of 300 bytes. *)
Fixpoint repeated (c : ascii) (n : nat) : string :=
  match n with
  | O => EmptyString
  | S n' => String c (repeated c n')
  end.

Definition long_name : string := repeated "a" 300.

Definition words_ja : Path := parse_path "languages/ja/words.json".
Definition config_ja : Path := parse_path "languages/ja/config.json".
Definition common_words : Path := parse_path "languages/shared/common_words.json".

Definition ja_shared : WordLoader.t :=
  WordLoader.mk words_ja (Some "shared/common_words.json").

Definition ja_plain : WordLoader.t := WordLoader.mk words_ja None.

(** A loader whose shared word list has a name of 300 bytes. *)
Definition ja_long_shared : WordLoader.t :=
  WordLoader.mk words_ja (Some long_name).


Definition quoted (s : string) : string :=
  String "034" EmptyString ++ s ++ String "034" EmptyString.

(** [{"word": 1}] *)
Definition one_word : string := "[{" ++ quoted "word" ++ ": 1}]".

(** [{"word": 1}, {"word": 2}] *)
Definition two_words : string :=
  "[{" ++ quoted "word" ++ ": 1}, {" ++ quoted "word" ++ ": 2}]".

(** Ten entries that are objects and an eleventh that is a number. *)
Definition eleven_entries : string := "[{},{},{},{},{},{},{},{},{},{},7]".

(** Both the word list of the language and the shared one are there. *)
Definition fs_both : filesystem :=
  disk [(words_ja, File one_word); (common_words, File two_words)].

(** Only the word list of the language is there. *)
Definition fs_primary_only : filesystem :=
  disk [(words_ja, File one_word)].

(** The shared word list holds an object instead of an array. *)
Definition fs_shared_invalid : filesystem :=
  disk [(words_ja, File one_word); (common_words, File "{}")].

Definition fs_long_list : filesystem :=
  disk [(words_ja, File eleven_entries)].

Definition required_part : string :=
  quoted "lang_id" ++ ": " ++ quoted "ja" ++ ", "
  ++ quoted "lang_name" ++ ": " ++ quoted "Japanese" ++ ", "
  ++ quoted "fonts" ++ ": {}, "
  ++ quoted "styles" ++ ": {}".

(** A config with the required fields only. *)
Definition config_minimal : string := "{" ++ required_part ++ "}".

(** A config whose [card_size] has two elements, and one with three. *)
Definition config_pair : string :=
  "{" ++ required_part ++ ", " ++ quoted "card_size" ++ ": [300, 400]}".

Definition config_triple : string :=
  "{" ++ required_part ++ ", " ++ quoted "card_size" ++ ": [1, 2, 3]}".

Definition fs_config (text : string) : filesystem :=
  disk [(config_ja, File text)].

End Sample.

(** * Properties *)

(** ** Running computations *)

Lemma eval_bind {A B} (m : IO A) (k : A -> IO B) (fs : filesystem) :
  eval (bind m k) fs =
  match eval m fs with
  | inl e => inl e
  | inr a => eval (k a) fs
  end.
Proof.
  unfold eval; cbn.
  destruct (m fs) as [[e | a] t]; cbn; [reflexivity |].
  destruct (k a fs); reflexivity.
Qed.

Lemma trace_bind {A B} (m : IO A) (k : A -> IO B) (fs : filesystem) :
  trace (bind m k) fs =
  match eval m fs with
  | inl _ => trace m fs
  | inr a => (trace m fs ++ trace (k a) fs)%list
  end.
Proof.
  unfold trace, eval; cbn.
  destruct (m fs) as [[e | a] t]; cbn; [reflexivity |].
  destruct (k a fs); reflexivity.
Qed.

Lemma eval_path_exists (p : Path) (fs : filesystem) :
  eval (path_exists p) fs = exists_answer fs p.
Proof. reflexivity. Qed.

Lemma trace_path_exists (p : Path) (fs : filesystem) :
  trace (path_exists p) fs = [Exists p].
Proof. reflexivity. Qed.

Lemma eval_open_read (p : Path) (fs : filesystem) :
  eval (open_read p) fs = open_answer fs p.
Proof. reflexivity. Qed.

Lemma trace_open_read (p : Path) (fs : filesystem) :
  trace (open_read p) fs = [Open p].
Proof. reflexivity. Qed.

(** ** What the filesystem answers *)

Lemma found_answer (fs : filesystem) (p : Path) (n : node) :
  fs p = Some n <-> answer fs p = Found n.
Proof.
  unfold found. destruct (answer fs p); split; congruence.
Qed.

(** [exists()] answers [True] exactly where a node is found. *)
Lemma exists_answer_true (fs : filesystem) (p : Path) :
  exists_answer fs p = inr true <-> exists n, fs p = Some n.
Proof.
  unfold exists_answer, found.
  destruct (answer fs p) as [n | errno |].
  - split; eauto.
  - destruct (ignored_errno errno); split; try discriminate; now intros [n Hn].
  - split; try discriminate; now intros [n Hn].
Qed.

Lemma exists_answer_found (fs : filesystem) (p : Path) (n : node) :
  fs p = Some n -> exists_answer fs p = inr true.
Proof. intros H. apply exists_answer_true. eauto. Qed.

Lemma is_absent_answer (fs : filesystem) (p : Path) :
  is_absent fs p = true <-> exists_answer fs p = inr false.
Proof.
  unfold is_absent.
  destruct (exists_answer fs p) as [e | [|]]; split; congruence.
Qed.

(** Where [exists()] answers [False], no node is found. *)
Lemma absent_not_found (fs : filesystem) (p : Path) :
  is_absent fs p = true -> fs p = None.
Proof.
  intros H. apply is_absent_answer in H.
  destruct (fs p) as [n |] eqn:Hn; [| reflexivity].
  rewrite (exists_answer_found fs p n Hn) in H. discriminate.
Qed.

Lemma open_answer_file (fs : filesystem) (p : Path) (text : string) :
  fs p = Some (File text) -> open_answer fs p = inr text.
Proof.
  intros H. apply found_answer in H. unfold open_answer. now rewrite H.
Qed.

(** [open] hands over bytes exactly where a readable file is found. *)
Lemma open_answer_text (fs : filesystem) (p : Path) (text : string) :
  open_answer fs p = inr text <-> fs p = Some (File text).
Proof.
  split; [| apply open_answer_file].
  unfold open_answer, found.
  destruct (answer fs p) as [[| content |] | errno |]; try discriminate.
  - now intros [= <-].
  - destruct (errno =? ENOENT)%Z; discriminate.
Qed.

(** [open] raises no [FileNotFoundError] where [exists()] answers [True]. *)
Lemma open_answer_not_found (fs : filesystem) (p : Path) :
  exists_answer fs p = inr true ->
  is_not_found (open_answer fs p) = false.
Proof.
  intros H. apply exists_answer_true in H as [n Hn].
  apply found_answer in Hn. unfold open_answer. rewrite Hn.
  now destruct n.
Qed.

Lemma eval_lift {A} (r : result A) (fs : filesystem) : eval (lift r) fs = r.
Proof. reflexivity. Qed.

(** ** Paths *)

Example parent_of_words :
  path_str (parent (parent Sample.words_ja)) = "languages".
Proof. reflexivity. Qed.

Example shared_candidate_of_sample :
  path_str (WordLoader.shared_candidate Sample.ja_shared "shared/common_words.json")
  = "languages/shared/common_words.json".
Proof. reflexivity. Qed.

Example parent_of_bare_name :
  parent (parent (parse_path "words.json")) = parse_path ".".
Proof. reflexivity. Qed.

Example join_anchored :
  joinpath (parse_path "languages") "/srv/words.json" = parse_path "/srv/words.json".
Proof. reflexivity. Qed.

(** Joining the empty string changes nothing. *)
Lemma joinpath_empty (p : Path) : joinpath p "" = p.
Proof.
  destruct p as [a ns]. unfold joinpath. cbn.
  now rewrite app_nil_r.
Qed.

(** [load_csv] raises [NotImplementedError] whatever it is given. *)
Lemma load_csv_raises (self : WordLoader.t) (delimiter : string) (fs : filesystem) :
  WordLoader.load_csv self delimiter fs
  = (inl (NotImplementedError "CSV 加载功能尚未实现"), []).
Proof. reflexivity. Qed.

(** ** Dictionaries *)

Lemma get_set_same (k : string) (v : value) (d : Dict.t) :
  Dict.get k (Dict.set k v d) = Some v.
Proof.
  induction d as [| [k' v'] d IH]; cbn.
  - now rewrite String.eqb_refl.
  - destruct (String.eqb k k') eqn:E; cbn; now rewrite E.
Qed.

Lemma get_set_other (k k' : string) (v : value) (d : Dict.t) :
  k <> k' -> Dict.get k' (Dict.set k v d) = Dict.get k' d.
Proof.
  intros Hne. induction d as [| [k0 v0] d IH]; cbn.
  - destruct (String.eqb_spec k' k); [congruence | reflexivity].
  - destruct (String.eqb_spec k k0) as [-> | Hk]; cbn.
    + destruct (String.eqb_spec k' k0); [congruence | reflexivity].
    + now rewrite IH.
Qed.

Lemma keys_set (k : string) (v : value) (d : Dict.t) :
  Dict.keys (Dict.set k v d)
  = if Dict.contains k d then Dict.keys d else (Dict.keys d ++ [k])%list.
Proof.
  unfold Dict.contains.
  induction d as [| [k' v'] d IH]; cbn; [reflexivity |].
  destruct (String.eqb k k') eqn:E; cbn; [reflexivity |].
  unfold Dict.keys in IH. rewrite IH.
  now destruct (Dict.get k d).
Qed.


(** ** The word-list loader *)

Section WordLoaderFacts.

Import WordLoader.

Variable json_load : decoder.
Variable fs : filesystem.

(** The early-exit loop is a universal test. *)
Lemma all_dicts_forallb (items : list value) :
  all_dicts items = forallb is_dict items.
Proof.
  induction items as [| x items IH]; cbn; [reflexivity |].
  destruct (is_dict x); cbn; [exact IH | reflexivity].
Qed.

Lemma validate_data_list (items : list value) :
  validate_data (VList items)
  = negb (length items =? 0)%nat
    && forallb is_dict (firstn (Nat.min 10 (length items)) items).
Proof.
  cbn [validate_data]. rewrite all_dicts_forallb.
  now destruct (length items =? 0)%nat.
Qed.

(** The resolved path is the shared candidate when the guard holds and
    [exists()] answers [True] for the candidate, [data_path] when the guard
    fails or [exists()] answers [False]; an error of [exists()] is raised
    on. *)
Lemma get_target_path_eval (self : t) :
  eval (_get_target_path self) fs =
  match shared_words_path self with
  | Some s =>
      if negb (String.eqb s "") then
        match exists_answer fs (shared_candidate self s) with
        | inl e => inl e
        | inr true => inr (shared_candidate self s)
        | inr false => inr (data_path self)
        end
      else inr (data_path self)
  | None => inr (data_path self)
  end.
Proof.
  unfold _get_target_path, shared_candidate.
  destruct (shared_words_path self) as [s |]; [| reflexivity].
  destruct (String.eqb s ""); cbn [negb]; [reflexivity |].
  rewrite eval_bind, eval_path_exists.
  now destruct (exists_answer fs _) as [e | [|]].
Qed.

(** What [load_json] yields, by what [exists()] and [open] answer at the
    resolved path. *)
Lemma load_json_eval (self : t) (target : Path) :
  eval (_get_target_path self) fs = inr target ->
  eval (load_json json_load self) fs =
  match exists_answer fs target with
  | inl e => inl e
  | inr false => inl (FileNotFoundError ("词库文件不存在: " ++ path_str target))
  | inr true =>
      match open_answer fs target with
      | inl e => inl e
      | inr text =>
          match json_load text with
          | inl e => inl (exn_of_decode_error e)
          | inr data =>
              if validate_data data then inr data
              else inl (ValueError ("词库数据格式无效: " ++ path_str (data_path self)))
          end
      end
  end.
Proof.
  intros Ht. unfold load_json.
  rewrite eval_bind, Ht, eval_bind, eval_path_exists.
  destruct (exists_answer fs target) as [e | [|]]; cbn [negb]; try reflexivity.
  rewrite eval_bind, eval_open_read.
  destruct (open_answer fs target) as [e | text]; [reflexivity |].
  rewrite eval_bind. unfold run_decoder. rewrite eval_lift.
  destruct (json_load text) as [e | data]; [reflexivity |].
  now destruct (validate_data data).
Qed.

(** [load_json] on a resolved path that holds a readable file. *)
Lemma load_json_of_file (self : t) (target : Path) (text : string) :
  eval (_get_target_path self) fs = inr target ->
  fs target = Some (File text) ->
  eval (load_json json_load self) fs =
  match json_load text with
  | inl e => inl (exn_of_decode_error e)
  | inr data =>
      if validate_data data then inr data
      else inl (ValueError ("词库数据格式无效: " ++ path_str (data_path self)))
  end.
Proof.
  intros Ht Hfile. rewrite (load_json_eval self target Ht).
  now rewrite (exists_answer_found _ _ _ Hfile), (open_answer_file _ _ _ Hfile).
Qed.

(** An error of [_get_target_path] is the error of [load_json]. *)
Lemma load_json_unresolved (self : t) (e : exn) :
  eval (_get_target_path self) fs = inl e ->
  eval (load_json json_load self) fs = inl e
  /\ trace (load_json json_load self) fs = trace (_get_target_path self) fs.
Proof.
  intros He. unfold load_json. now rewrite eval_bind, trace_bind, He.
Qed.

End WordLoaderFacts.

(** ** Sampled validation *)

Lemma forallb_firstn_nth {A} (f : A -> bool) (n : nat) (l : list A) :
  forallb f (firstn n l) = true
  <-> forall i x, i < n -> nth_error l i = Some x -> f x = true.
Proof.
  rewrite forallb_forall. split.
  - intros H i x Hi Hx. apply H.
    apply nth_error_In with (n := i).
    rewrite nth_error_firstn.
    destruct (Nat.ltb_spec i n); [exact Hx | lia].
  - intros H x Hin. apply In_nth_error in Hin as [i Hi].
    rewrite nth_error_firstn in Hi.
    destruct (Nat.ltb_spec i n); [eauto | discriminate].
Qed.

(** C4: [validate_data] is false on every value that is not a list, false
    on the empty list, false on a list one of whose first [min(10, length)]
    entries is not a dict, and true on a non-empty list whose first
    [min(10, length)] entries are all dicts. In particular it is false on
    [[]], true on [[{}]], false on [["not-a-dict"]] and false on values
    that are not lists. *)
Theorem validate_data_spec :
  (forall data, is_list data = false -> WordLoader.validate_data data = false)
  /\ WordLoader.validate_data (VList []) = false
  /\ (forall items i x,
        i < Nat.min 10 (length items) ->
        nth_error items i = Some x ->
        is_dict x = false ->
        WordLoader.validate_data (VList items) = false)
  /\ (forall items,
        items <> [] ->
        (forall i x,
            i < Nat.min 10 (length items) ->
            nth_error items i = Some x ->
            is_dict x = true) ->
        WordLoader.validate_data (VList items) = true)
  /\ WordLoader.validate_data (VList [VDict []]) = true
  /\ WordLoader.validate_data (VList [VStr "not-a-dict"]) = false
  /\ WordLoader.validate_data (VStr "not-a-list") = false
  /\ WordLoader.validate_data (VDict []) = false
  /\ WordLoader.validate_data VNone = false.
Proof.
  repeat split; try reflexivity.
  - intros data H. destruct data; try reflexivity. discriminate.
  - intros items i x Hi Hx Hd. rewrite validate_data_list.
    apply andb_false_iff. right.
    apply not_true_is_false. intros Hall.
    rewrite forallb_firstn_nth in Hall.
    rewrite (Hall i x Hi Hx) in Hd. discriminate.
  - intros items Hne Hall. rewrite validate_data_list.
    apply andb_true_iff. split.
    + destruct items; [congruence | reflexivity].
    + now apply forallb_firstn_nth.
Qed.

(** C4 at a list of two dicts followed by a number, and at a number. *)
Lemma validate_data_spec_witness :
  WordLoader.validate_data (VList [VDict []; VInt 3]) = false
  /\ WordLoader.validate_data (VList [VDict []; VDict [("word", VInt 1)]]) = true
  /\ WordLoader.validate_data (VInt 3) = false.
Proof.
  destruct validate_data_spec as (Hnl & _ & Hbad & Hgood & _).
  split; [| split].
  - apply (Hbad [VDict []; VInt 3] 1 (VInt 3)); [cbn; lia | reflexivity | reflexivity].
  - apply Hgood; [discriminate |].
    intros [| [| i]] x Hi Hx; cbn in Hi, Hx; try lia;
      injection Hx as <-; reflexivity.
  - apply Hnl. reflexivity.
Defined.

(** ** Which file is loaded *)

(** A shared path that passes the guard makes [_get_target_path] ask for
    the shared candidate, and for nothing else. *)
Lemma get_target_path_trace (fs : filesystem) (self : WordLoader.t) (s : string) :
  WordLoader.shared_words_path self = Some s ->
  s <> "" ->
  trace (WordLoader._get_target_path self) fs
  = [Exists (WordLoader.shared_candidate self s)].
Proof.
  intros Hs Hne. unfold WordLoader._get_target_path. rewrite Hs.
  destruct (String.eqb_spec s ""); [contradiction |]. cbn [negb].
  rewrite trace_bind, eval_path_exists, trace_path_exists.
  now destruct (exists_answer fs _) as [e | [|]].
Qed.

(** C1: when [shared_words_path] is set (a string that passes the guard
    [if self.shared_words_path:], so not the empty one) and a file exists at
    [data_path.parent.parent / shared_words_path], [_get_target_path]
    returns that shared path and [load_json] returns the decoded contents of
    the shared file; what is at [data_path], if anything, plays no part. *)
Theorem shared_words_take_precedence
  (json_load : decoder) (fs : filesystem) (self : WordLoader.t) (s text : string) :
  WordLoader.shared_words_path self = Some s ->
  s <> "" ->
  fs (WordLoader.shared_candidate self s) = Some (File text) ->
  eval (WordLoader._get_target_path self) fs
  = inr (WordLoader.shared_candidate self s)
  /\ (forall data,
        json_load text = inr data ->
        WordLoader.validate_data data = true ->
        eval (WordLoader.load_json json_load self) fs = inr data)
  /\ (forall fs' : filesystem,
        fs' (WordLoader.shared_candidate self s) = Some (File text) ->
        eval (WordLoader.load_json json_load self) fs'
        = eval (WordLoader.load_json json_load self) fs).
Proof.
  intros Hs Hne Hfile.
  assert (Htarget : forall fs0 : filesystem,
             fs0 (WordLoader.shared_candidate self s) = Some (File text) ->
             eval (WordLoader._get_target_path self) fs0
             = inr (WordLoader.shared_candidate self s)).
  { intros fs0 H0. rewrite get_target_path_eval, Hs.
    destruct (String.eqb_spec s ""); [contradiction |]. cbn [negb].
    now rewrite (exists_answer_found _ _ _ H0). }
  split; [now apply Htarget | split].
  - intros data Hdata Hvalid.
    rewrite (load_json_of_file json_load fs self _ text (Htarget fs Hfile) Hfile).
    now rewrite Hdata, Hvalid.
  - intros fs' Hfile'.
    rewrite (load_json_of_file json_load fs self _ text (Htarget fs Hfile) Hfile).
    now rewrite (load_json_of_file json_load fs' self _ text
                   (Htarget fs' Hfile') Hfile').
Qed.

(** C1 on the sample directory in which both word lists exist and differ:
    the two entries of the shared list are returned, not the one entry of
    [languages/ja/words.json]. *)
Lemma shared_words_take_precedence_witness :
  eval (WordLoader._get_target_path Sample.ja_shared) Sample.fs_both
  = inr Sample.common_words
  /\ eval (WordLoader.load_json JsonLite.json_load Sample.ja_shared) Sample.fs_both
     = inr (VList [VDict [("word", VInt 1)]; VDict [("word", VInt 2)]])
  /\ Sample.fs_both Sample.words_ja = Some (File Sample.one_word).
Proof.
  pose proof (shared_words_take_precedence JsonLite.json_load Sample.fs_both
                Sample.ja_shared "shared/common_words.json" Sample.two_words
                eq_refl ltac:(discriminate) eq_refl) as (Htarget & Hload & _).
  split; [exact Htarget | split; [| reflexivity]].
  apply Hload; reflexivity.
Defined.

(** C2 as stated fails: with a shared path whose name has 300 bytes,
    nothing is found at the shared candidate, yet [exists()] raises the
    [OSError] of the lookup (ENAMETOOLONG) instead of answering [False], and
    neither [_get_target_path] nor [load_json] falls back to [data_path],
    which is there. *)
Lemma missing_shared_words_can_raise :
  Sample.fs_primary_only
    (WordLoader.shared_candidate Sample.ja_long_shared Sample.long_name) = None
  /\ Sample.fs_primary_only Sample.words_ja = Some (File Sample.one_word)
  /\ eval (WordLoader._get_target_path Sample.ja_long_shared)
          Sample.fs_primary_only
     = inl (OSError ENAMETOOLONG)
  /\ eval (WordLoader.load_json JsonLite.json_load Sample.ja_long_shared)
          Sample.fs_primary_only
     = inl (OSError ENAMETOOLONG).
Proof. repeat split; vm_compute; reflexivity. Qed.

(** C2, amended: when [shared_words_path] is set and [exists()] answers
    [False] for the shared candidate, [_get_target_path] returns [data_path]
    and [load_json] does what a loader without shared path does: it loads
    [data_path], and the only missing file it can complain about is
    [data_path]. *)
Theorem missing_shared_words_fall_back
  (json_load : decoder) (fs : filesystem) (self : WordLoader.t) (s : string) :
  WordLoader.shared_words_path self = Some s ->
  is_absent fs (WordLoader.shared_candidate self s) = true ->
  eval (WordLoader._get_target_path self) fs = inr (WordLoader.data_path self)
  /\ eval (WordLoader.load_json json_load self) fs
     = eval (WordLoader.load_json json_load
               (WordLoader.mk (WordLoader.data_path self) None)) fs
  /\ (forall text data,
        fs (WordLoader.data_path self) = Some (File text) ->
        json_load text = inr data ->
        WordLoader.validate_data data = true ->
        eval (WordLoader.load_json json_load self) fs = inr data)
  /\ (forall msg,
        eval (WordLoader.load_json json_load self) fs = inl (FileNotFoundError msg) ->
        msg = "词库文件不存在: " ++ path_str (WordLoader.data_path self)).
Proof.
  intros Hs Hmissing. apply is_absent_answer in Hmissing.
  assert (Htarget : eval (WordLoader._get_target_path self) fs
                    = inr (WordLoader.data_path self)).
  { rewrite get_target_path_eval, Hs, Hmissing. now destruct (negb _). }
  pose proof (load_json_eval json_load fs self _ Htarget) as Hload.
  split; [exact Htarget | split; [| split]].
  - rewrite Hload.
    now rewrite (load_json_eval json_load fs
                   (WordLoader.mk (WordLoader.data_path self) None)
                   (WordLoader.data_path self)).
  - intros text data Hfile Hdata Hvalid.
    rewrite (load_json_of_file json_load fs self _ text Htarget Hfile).
    now rewrite Hdata, Hvalid.
  - intros msg. rewrite Hload.
    destruct (exists_answer fs (WordLoader.data_path self))
      as [e | [|]] eqn:Hexists.
    + intros [= ->]. unfold exists_answer in Hexists.
      destruct (answer fs (WordLoader.data_path self)) as [n | errno |];
        try discriminate.
      destruct (ignored_errno errno); discriminate.
    + pose proof (open_answer_not_found fs _ Hexists) as Hopen.
      destruct (open_answer fs (WordLoader.data_path self)) as [e | text].
      * intros [= ->]. discriminate.
      * destruct (json_load text) as [[| | msg' |] | data]; try discriminate.
        destruct (WordLoader.validate_data data); discriminate.
    + now intros [= <-].
Qed.

(** C2, amended, on the sample directory without the shared list. *)
Lemma missing_shared_words_fall_back_witness :
  eval (WordLoader._get_target_path Sample.ja_shared) Sample.fs_primary_only
  = inr Sample.words_ja
  /\ eval (WordLoader.load_json JsonLite.json_load Sample.ja_shared)
          Sample.fs_primary_only
     = inr (VList [VDict [("word", VInt 1)]]).
Proof.
  pose proof (missing_shared_words_fall_back JsonLite.json_load
                Sample.fs_primary_only Sample.ja_shared
                "shared/common_words.json" eq_refl eq_refl)
    as (Htarget & _ & Hload & _).
  split; [exact Htarget |].
  apply (Hload Sample.one_word); reflexivity.
Defined.

(** C6: when the decoded data fails [validate_data], [load_json] raises a
    [ValueError] whose message names the configured [data_path], whichever
    file the data came from. *)
Theorem invalid_data_error_names_data_path
  (json_load : decoder) (fs : filesystem) (self : WordLoader.t)
  (target : Path) (text : string) (data : value) :
  eval (WordLoader._get_target_path self) fs = inr target ->
  fs target = Some (File text) ->
  json_load text = inr data ->
  WordLoader.validate_data data = false ->
  eval (WordLoader.load_json json_load self) fs
  = inl (ValueError ("词库数据格式无效: " ++ path_str (WordLoader.data_path self))).
Proof.
  intros Htarget Hfile Hdata Hinvalid.
  rewrite (load_json_of_file json_load fs self target text Htarget Hfile).
  now rewrite Hdata, Hinvalid.
Qed.

(** C6 where the bytes come from the shared file, which holds an object:
    the message names [languages/ja/words.json]. *)
Lemma invalid_data_error_names_data_path_witness :
  eval (WordLoader._get_target_path Sample.ja_shared) Sample.fs_shared_invalid
  = inr Sample.common_words
  /\ eval (WordLoader.load_json JsonLite.json_load Sample.ja_shared)
          Sample.fs_shared_invalid
     = inl (ValueError "词库数据格式无效: languages/ja/words.json").
Proof.
  split; [reflexivity |].
  apply (invalid_data_error_names_data_path JsonLite.json_load
           Sample.fs_shared_invalid Sample.ja_shared Sample.common_words
           "{}" (VDict [])); reflexivity.
Defined.

(** C9: with the empty string as [shared_words_path], [_get_target_path]
    returns [data_path] and consults no path, and both it and [load_json]
    are the computations of a loader without shared path. *)
Theorem empty_shared_words_path_is_unset
  (json_load : decoder) (fs : filesystem) (data_path : Path) :
  WordLoader._get_target_path (WordLoader.mk data_path (Some "")) fs
  = (inr data_path, [])
  /\ WordLoader._get_target_path (WordLoader.mk data_path (Some ""))
     = WordLoader._get_target_path (WordLoader.mk data_path None)
  /\ WordLoader.load_json json_load (WordLoader.mk data_path (Some ""))
     = WordLoader.load_json json_load (WordLoader.mk data_path None).
Proof. repeat split. Qed.

(** C10: a list of more than ten entries whose first ten are dicts passes
    [validate_data] whatever follows, and [load_json] returns such a list
    when the resolved file holds it. *)
Theorem validate_data_samples_prefix_only
  (json_load : decoder) (fs : filesystem) (self : WordLoader.t)
  (target : Path) (text : string) (items : list value) :
  10 < length items ->
  forallb is_dict (firstn 10 items) = true ->
  eval (WordLoader._get_target_path self) fs = inr target ->
  fs target = Some (File text) ->
  json_load text = inr (VList items) ->
  WordLoader.validate_data (VList items) = true
  /\ eval (WordLoader.load_json json_load self) fs = inr (VList items).
Proof.
  intros Hlen Hprefix Htarget Hfile Hdata.
  assert (Hvalid : WordLoader.validate_data (VList items) = true).
  { rewrite validate_data_list.
    replace (Nat.min 10 (length items)) with 10 by lia.
    rewrite Hprefix.
    destruct (Nat.eqb_spec (length items) 0); [lia | reflexivity]. }
  split; [exact Hvalid |].
  rewrite (load_json_of_file json_load fs self target text Htarget Hfile).
  now rewrite Hdata, Hvalid.
Qed.

(** C10 on a file of ten objects and a number: the number is returned with
    the rest. *)
Lemma validate_data_samples_prefix_only_witness :
  eval (WordLoader.load_json JsonLite.json_load Sample.ja_plain) Sample.fs_long_list
  = inr (VList (repeat (VDict []) 10 ++ [VInt 7]))
  /\ is_dict (VInt 7) = false.
Proof.
  split; [| reflexivity].
  apply (validate_data_samples_prefix_only JsonLite.json_load
           Sample.fs_long_list Sample.ja_plain Sample.words_ja
           Sample.eleven_entries (repeat (VDict []) 10 ++ [VInt 7]));
    try reflexivity.
  cbn. lia.
Defined.

(** ** The configuration loader *)

Section LanguageConfigFacts.

Import LanguageConfig.

Lemma contains_get (k : string) (d : Dict.t) :
  Dict.contains k d = false <-> Dict.get k d = None.
Proof.
  unfold Dict.contains. destruct (Dict.get k d); split; congruence.
Qed.

Lemma fields_kept_by_set (k : string) (v : value) (d : Dict.t) :
  is_field k = true ->
  forallb is_field (Dict.keys (Dict.set k v d))
  = forallb is_field (Dict.keys d).
Proof.
  intros Hk. rewrite keys_set.
  destruct (Dict.contains k d); [reflexivity |].
  rewrite forallb_app. cbn [forallb]. rewrite Hk.
  now rewrite !andb_true_r.
Qed.

(** One [if key not in data: data[key] = default] on a dict. *)
Lemma fill_default_dict (key : string) (default : value) (d : Dict.t) :
  exists d',
    fill_default key default (VDict d) = inr (VDict d')
    /\ Dict.get key d' = Some (or_default (Dict.get key d) default)
    /\ (forall k, k <> key -> Dict.get k d' = Dict.get k d)
    /\ (is_field key = true ->
        forallb is_field (Dict.keys d') = forallb is_field (Dict.keys d)).
Proof.
  unfold fill_default. cbn. unfold Dict.contains.
  destruct (Dict.get key d) as [v |] eqn:Hget; cbn.
  - exists d. repeat split; auto.
  - exists (Dict.set key default d). repeat split.
    + apply get_set_same.
    + intros k Hk. apply get_set_other. congruence.
    + apply fields_kept_by_set.
Qed.

(** The conversion of a [card_size] that is a list, on a dict. *)
Lemma convert_card_size_dict (d : Dict.t) :
  exists d',
    convert_card_size (VDict d) = inr (VDict d')
    /\ Dict.get "card_size" d'
       = match Dict.get "card_size" d with
         | Some (VList items) => Some (VTuple items)
         | other => other
         end
    /\ (forall k, k <> "card_size" -> Dict.get k d' = Dict.get k d)
    /\ forallb is_field (Dict.keys d') = forallb is_field (Dict.keys d).
Proof.
  unfold convert_card_size. cbn. unfold Dict.contains.
  destruct (Dict.get "card_size" d) as [v |] eqn:Hget; cbn.
  - destruct v; cbn;
      try (exists d; repeat split; auto; fail).
    exists (Dict.set "card_size" (VTuple items) d). repeat split.
    + apply get_set_same.
    + intros k Hk. apply get_set_other. congruence.
    + now apply fields_kept_by_set.
  - exists d. repeat split; auto.
Qed.

(** The record [from_json] builds from a well-formed JSON object. *)
Lemma construct_after_defaults (d : Dict.t) :
  well_formed d = true ->
  exists r,
    bind (apply_defaults (VDict d)) construct = inr r
    /\ Dict.get "lang_id" d = Some (lang_id r)
    /\ Dict.get "lang_name" d = Some (lang_name r)
    /\ Dict.get "fonts" d = Some (fonts r)
    /\ Dict.get "styles" d = Some (styles r)
    /\ card_size r
       = match Dict.get "card_size" d with
         | Some (VList items) => VTuple items
         | Some v => v
         | None => default_card_size
         end
    /\ theme_colors r = or_default (Dict.get "theme_colors" d) (VList [])
    /\ level_filter r = or_default (Dict.get "level_filter" d) (VStr "all")
    /\ shared_words_path r = or_default (Dict.get "shared_words_path" d) VNone.
Proof.
  unfold well_formed. intros Hwf.
  apply andb_true_iff in Hwf as [Hfields Hreq].
  cbn in Hreq. unfold Dict.contains in Hreq.
  destruct (Dict.get "lang_id" d) as [i |] eqn:Hi; [| discriminate].
  destruct (Dict.get "lang_name" d) as [n |] eqn:Hn; [| discriminate].
  destruct (Dict.get "fonts" d) as [f |] eqn:Hf; [| discriminate].
  destruct (Dict.get "styles" d) as [s |] eqn:Hs; [| discriminate].
  clear Hreq.
  destruct (convert_card_size_dict d) as (d1 & E1 & G1 & O1 & F1).
  destruct (fill_default_dict "theme_colors" (VList []) d1) as (d2 & E2 & G2 & O2 & F2).
  destruct (fill_default_dict "level_filter" (VStr "all") d2) as (d3 & E3 & G3 & O3 & F3).
  destruct (fill_default_dict "shared_words_path" VNone d3) as (d4 & E4 & G4 & O4 & F4).
  assert (Hkeys : forallb is_field (Dict.keys d4) = true).
  { now rewrite F4, F3, F2, F1. }
  unfold apply_defaults. cbn [bind Monad_result]. rewrite E1, E2, E3, E4.
  cbn [construct]. rewrite Hkeys. cbn [negb].
  assert (Hkept : forall k,
             k <> "card_size" -> k <> "theme_colors" ->
             k <> "level_filter" -> k <> "shared_words_path" ->
             Dict.get k d4 = Dict.get k d).
  { intros k H1 H2 H3 H4. now rewrite O4, O3, O2, O1. }
  rewrite !Hkept, Hi, Hn, Hf, Hs by discriminate.
  rewrite (O4 "card_size"), (O3 "card_size"), (O2 "card_size"), G1
    by discriminate.
  rewrite (O4 "theme_colors"), (O3 "theme_colors"), G2, (O1 "theme_colors")
    by discriminate.
  rewrite (O4 "level_filter"), G3, (O2 "level_filter"), (O1 "level_filter")
    by discriminate.
  rewrite G4, (O3 "shared_words_path"), (O2 "shared_words_path"),
    (O1 "shared_words_path") by discriminate.
  eexists. split; [reflexivity |]. cbn.
  repeat split.
  now destruct (Dict.get "card_size" d) as [[] |].
Qed.

(** A JSON object with a key that is not a field, or without a required
    field, is refused with a [TypeError]. *)
Lemma construct_refuses_ill_formed (d : Dict.t) :
  well_formed d = false ->
  bind (apply_defaults (VDict d)) construct = inl TypeError.
Proof.
  unfold well_formed. intros Hwf.
  destruct (convert_card_size_dict d) as (d1 & E1 & _ & O1 & F1).
  destruct (fill_default_dict "theme_colors" (VList []) d1) as (d2 & E2 & _ & O2 & F2).
  destruct (fill_default_dict "level_filter" (VStr "all") d2) as (d3 & E3 & _ & O3 & F3).
  destruct (fill_default_dict "shared_words_path" VNone d3) as (d4 & E4 & _ & O4 & F4).
  assert (Hkept : forall k,
             k <> "card_size" -> k <> "theme_colors" ->
             k <> "level_filter" -> k <> "shared_words_path" ->
             Dict.get k d4 = Dict.get k d).
  { intros k H1 H2 H3 H4. now rewrite O4, O3, O2, O1. }
  unfold apply_defaults. cbn [bind Monad_result]. rewrite E1, E2, E3, E4.
  cbn [construct]. rewrite F4, F3, F2, F1 by reflexivity.
  destruct (forallb is_field (Dict.keys d)); [| reflexivity].
  cbn [negb]. rewrite !Hkept by discriminate.
  cbn in Hwf. unfold Dict.contains in Hwf.
  destruct (Dict.get "lang_id" d); [| reflexivity].
  destruct (Dict.get "lang_name" d); [| reflexivity].
  destruct (Dict.get "fonts" d); [| reflexivity].
  destruct (Dict.get "styles" d); [discriminate | reflexivity].
Qed.

(** Data that is not a dict is refused with a [TypeError]. *)
Lemma construct_needs_dict (data : value) :
  is_dict data = false ->
  bind (apply_defaults data) construct = inl TypeError.
Proof.
  intros Hd. unfold apply_defaults, convert_card_size, fill_default.
  destruct data; try discriminate; cbn;
    repeat match goal with
      | |- context [if ?b then _ else _] => destruct b; cbn
      | |- context [match ?b with Some _ => _ | None => _ end] => destruct b; cbn
      end;
    reflexivity.
Qed.


Variable json_load : decoder.
Variable fs : filesystem.

(** What [from_json] yields, by what [exists()] and [open] answer at the
    path. *)
Lemma from_json_eval (config_path : Path) :
  eval (from_json json_load config_path) fs =
  match exists_answer fs config_path with
  | inl e => inl e
  | inr false =>
      inl (FileNotFoundError ("配置文件不存在: " ++ path_str config_path))
  | inr true =>
      match open_answer fs config_path with
      | inl e => inl e
      | inr text =>
          match json_load text with
          | inl e => inl (exn_of_decode_error e)
          | inr data => bind (apply_defaults data) construct
          end
      end
  end.
Proof.
  unfold from_json. rewrite eval_bind, eval_path_exists.
  destruct (exists_answer fs config_path) as [e | [|]]; cbn [negb];
    try reflexivity.
  rewrite eval_bind, eval_open_read.
  destruct (open_answer fs config_path) as [e | text]; [reflexivity |].
  rewrite eval_bind. unfold run_decoder. rewrite eval_lift.
  destruct (json_load text) as [e | data]; [reflexivity |].
  now rewrite eval_lift.
Qed.

(** [from_json] on a path that holds a readable file. *)
Lemma from_json_of_file (config_path : Path) (text : string) :
  fs config_path = Some (File text) ->
  eval (from_json json_load config_path) fs =
  match json_load text with
  | inl e => inl (exn_of_decode_error e)
  | inr data => bind (apply_defaults data) construct
  end.
Proof.
  intros Hfile. rewrite from_json_eval.
  now rewrite (exists_answer_found _ _ _ Hfile), (open_answer_file _ _ _ Hfile).
Qed.

End LanguageConfigFacts.

(** C3: from a config document (a JSON object with the required fields and
    no key that is not a field), [from_json] returns a record in which every
    optional field the document leaves out holds its default:
    [theme_colors = []], [level_filter = "all"], [shared_words_path = None]
    and [card_size = (432, 540)]. *)
Theorem absent_optional_fields_get_defaults
  (json_load : decoder) (fs : filesystem) (config_path : Path)
  (text : string) (d : Dict.t) :
  fs config_path = Some (File text) ->
  json_load text = inr (VDict d) ->
  LanguageConfig.well_formed d = true ->
  exists r,
    eval (LanguageConfig.from_json json_load config_path) fs = inr r
    /\ (Dict.contains "theme_colors" d = false ->
        LanguageConfig.theme_colors r = VList [])
    /\ (Dict.contains "level_filter" d = false ->
        LanguageConfig.level_filter r = VStr "all")
    /\ (Dict.contains "shared_words_path" d = false ->
        LanguageConfig.shared_words_path r = VNone)
    /\ (Dict.contains "card_size" d = false ->
        LanguageConfig.card_size r = VTuple [VInt 432; VInt 540]).
Proof.
  intros Hfile Hdata Hwf.
  destruct (construct_after_defaults d Hwf)
    as (r & Hr & _ & _ & _ & _ & Hcs & Htc & Hlf & Hsw).
  exists r. rewrite (from_json_of_file _ _ _ _ Hfile), Hdata.
  split; [exact Hr |].
  repeat split; intros Habsent; apply contains_get in Habsent.
  - now rewrite Htc, Habsent.
  - now rewrite Hlf, Habsent.
  - now rewrite Hsw, Habsent.
  - now rewrite Hcs, Habsent.
Qed.

(** C3 on a config that gives the four required fields only. *)
Lemma absent_optional_fields_get_defaults_witness :
  exists r,
    eval (LanguageConfig.from_json JsonLite.json_load Sample.config_ja)
         (Sample.fs_config Sample.config_minimal) = inr r
    /\ LanguageConfig.theme_colors r = VList []
    /\ LanguageConfig.level_filter r = VStr "all"
    /\ LanguageConfig.shared_words_path r = VNone
    /\ LanguageConfig.card_size r = VTuple [VInt 432; VInt 540].
Proof.
  destruct (absent_optional_fields_get_defaults JsonLite.json_load
              (Sample.fs_config Sample.config_minimal) Sample.config_ja
              Sample.config_minimal
              [("lang_id", VStr "ja"); ("lang_name", VStr "Japanese");
               ("fonts", VDict []); ("styles", VDict [])]
              eq_refl eq_refl eq_refl)
    as (r & Hr & Htc & Hlf & Hsw & Hcs).
  exists r. repeat split; auto.
Defined.

(** C7 as stated fails: a [card_size] of three elements is converted to a
    tuple of three elements, not of two. *)
Lemma card_size_of_three_is_not_a_pair :
  JsonLite.json_load Sample.config_triple
  = inr (VDict [("lang_id", VStr "ja"); ("lang_name", VStr "Japanese");
                ("fonts", VDict []); ("styles", VDict []);
                ("card_size", VList [VInt 1; VInt 2; VInt 3])])
  /\ exists r,
      eval (LanguageConfig.from_json JsonLite.json_load Sample.config_ja)
           (Sample.fs_config Sample.config_triple) = inr r
      /\ LanguageConfig.card_size r = VTuple [VInt 1; VInt 2; VInt 3]
      /\ forall a b, LanguageConfig.card_size r <> VTuple [a; b].
Proof.
  split; [reflexivity |].
  eexists. split; [reflexivity |]. split; [reflexivity |].
  cbn. discriminate.
Qed.

(** C7, amended: a [card_size] given as a list is converted to the tuple of
    the same values in the same order, as long as the list is; so a list of
    two elements gives a tuple of these two. *)
Theorem card_size_list_becomes_tuple
  (json_load : decoder) (fs : filesystem) (config_path : Path)
  (text : string) (d : Dict.t) (items : list value) :
  fs config_path = Some (File text) ->
  json_load text = inr (VDict d) ->
  LanguageConfig.well_formed d = true ->
  Dict.get "card_size" d = Some (VList items) ->
  exists r,
    eval (LanguageConfig.from_json json_load config_path) fs = inr r
    /\ LanguageConfig.card_size r = VTuple items
    /\ (forall a b, items = [a; b] -> LanguageConfig.card_size r = VTuple [a; b]).
Proof.
  intros Hfile Hdata Hwf Hcard.
  destruct (construct_after_defaults d Hwf)
    as (r & Hr & _ & _ & _ & _ & Hcs & _).
  exists r. rewrite (from_json_of_file _ _ _ _ Hfile), Hdata.
  rewrite Hcard in Hcs.
  split; [exact Hr | split; [exact Hcs |]].
  intros a b ->. exact Hcs.
Qed.

(** C7, amended, on a config whose [card_size] is [[300, 400]]. *)
Lemma card_size_list_becomes_tuple_witness :
  exists r,
    eval (LanguageConfig.from_json JsonLite.json_load Sample.config_ja)
         (Sample.fs_config Sample.config_pair) = inr r
    /\ LanguageConfig.card_size r = VTuple [VInt 300; VInt 400].
Proof.
  destruct (card_size_list_becomes_tuple JsonLite.json_load
              (Sample.fs_config Sample.config_pair) Sample.config_ja
              Sample.config_pair
              [("lang_id", VStr "ja"); ("lang_name", VStr "Japanese");
               ("fonts", VDict []); ("styles", VDict []);
               ("card_size", VList [VInt 300; VInt 400])]
              [VInt 300; VInt 400]
              eq_refl eq_refl eq_refl eq_refl)
    as (r & Hr & Hcs & _).
  exists r. split; [exact Hr | exact Hcs].
Defined.

(** [to_dict] raises exactly when [list(self.card_size)] does. *)
Lemma to_dict_raises (self : LanguageConfig.t) (e : exn) :
  py_list (LanguageConfig.card_size self) = inl e ->
  LanguageConfig.to_dict self = inl e.
Proof. unfold LanguageConfig.to_dict. now intros ->. Qed.






(** * Further properties of the loaders *)

(** ** Helpers *)

Lemma firstn_min_length {A} (n : nat) (l : list A) :
  firstn (Nat.min n (length l)) l = firstn n l.
Proof.
  destruct (Nat.le_ge_cases n (length l)) as [H | H].
  - now rewrite Nat.min_l.
  - rewrite Nat.min_r by exact H.
    now rewrite firstn_all, firstn_all2.
Qed.

(** Where [exists()] raises, no node is found. *)
Lemma exists_answer_raises (fs : filesystem) (p : Path) (e : exn) :
  exists_answer fs p = inl e ->
  fs p = None
  /\ exists errno,
      answer fs p = StatError errno
      /\ ignored_errno errno = false
      /\ e = OSError errno.
Proof.
  unfold exists_answer, found.
  destruct (answer fs p) as [n | errno |]; try discriminate.
  destruct (ignored_errno errno) eqn:Hignored; [discriminate |].
  intros [= <-]. split; [reflexivity |]. now exists errno.
Qed.

(** What [_get_target_path] asks the filesystem. *)
Lemma get_target_path_accesses (fs : filesystem) (self : WordLoader.t) :
  trace (WordLoader._get_target_path self) fs
  = match WordLoader.shared_words_path self with
    | Some s =>
        if negb (String.eqb s "")
        then [Exists (WordLoader.shared_candidate self s)]
        else []
    | None => []
    end.
Proof.
  unfold WordLoader._get_target_path.
  destruct (WordLoader.shared_words_path self) as [s |]; [| reflexivity].
  destruct (negb (String.eqb s "")); [| reflexivity].
  rewrite trace_bind, eval_path_exists, trace_path_exists.
  now destruct (exists_answer fs _) as [e | [|]].
Qed.

(** What [load_json] asks the filesystem, in order. *)
Lemma load_json_accesses
  (json_load : decoder) (fs : filesystem) (self : WordLoader.t) (target : Path) :
  eval (WordLoader._get_target_path self) fs = inr target ->
  trace (WordLoader.load_json json_load self) fs
  = (trace (WordLoader._get_target_path self) fs
     ++ Exists target
     :: match fs target with Some _ => [Open target] | None => [] end)%list.
Proof.
  intros Ht. unfold WordLoader.load_json.
  rewrite trace_bind, Ht. f_equal.
  rewrite trace_bind, eval_path_exists, trace_path_exists.
  destruct (exists_answer fs target) as [e | [|]] eqn:Hexists.
  - apply exists_answer_raises in Hexists as [-> _]. reflexivity.
  - cbn [negb]. apply exists_answer_true in Hexists as [n ->].
    cbn [app]. f_equal.
    rewrite trace_bind, eval_open_read, trace_open_read.
    destruct (open_answer fs target) as [e | text]; [reflexivity |].
    cbn [app]. f_equal.
    rewrite trace_bind. unfold run_decoder. rewrite eval_lift.
    change (trace (lift ?r) fs) with (@nil fs_event).
    destruct (json_load text) as [e | data]; [reflexivity |].
    now destruct (WordLoader.validate_data data).
  - cbn [negb]. apply is_absent_answer, absent_not_found in Hexists.
    now rewrite Hexists.
Qed.

(** The decoded data is refused with a [TypeError] or gives a record. *)
Lemma construct_errors (data : value) (e : exn) :
  bind (LanguageConfig.apply_defaults data) LanguageConfig.construct = inl e ->
  e = TypeError.
Proof.
  destruct (is_dict data) eqn:Hd.
  - destruct data; try discriminate.
    destruct (LanguageConfig.well_formed entries) eqn:Hwf.
    + destruct (construct_after_defaults entries Hwf) as (r & -> & _).
      discriminate.
    + rewrite (construct_refuses_ill_formed entries Hwf). now intros [= <-].
  - rewrite (construct_needs_dict data Hd). now intros [= <-].
Qed.

(** ** The word-list loader, further *)

(** X1: [load_json] returns [data] exactly when the resolved path holds a
    file whose bytes decode to [data] and [data] passes [validate_data]. *)
Theorem load_json_returns_iff
  (json_load : decoder) (fs : filesystem) (self : WordLoader.t)
  (target : Path) (data : value) :
  eval (WordLoader._get_target_path self) fs = inr target ->
  eval (WordLoader.load_json json_load self) fs = inr data
  <-> exists text,
      fs target = Some (File text)
      /\ json_load text = inr data
      /\ WordLoader.validate_data data = true.
Proof.
  intros Ht. rewrite (load_json_eval json_load fs self target Ht). split.
  - destruct (exists_answer fs target) as [e | [|]]; try discriminate.
    destruct (open_answer fs target) as [e | text] eqn:Hopen; try discriminate.
    apply open_answer_text in Hopen.
    destruct (json_load text) as [e | data'] eqn:Hdata; try discriminate.
    destruct (WordLoader.validate_data data') eqn:Hvalid; try discriminate.
    intros [= <-]. now exists text.
  - intros (text & Hfile & Hdata & Hvalid).
    rewrite (exists_answer_found _ _ _ Hfile), (open_answer_file _ _ _ Hfile).
    now rewrite Hdata, Hvalid.
Qed.

(** X1 on the sample directory that holds the word list of the language. *)
Lemma load_json_returns_iff_witness :
  eval (WordLoader.load_json JsonLite.json_load Sample.ja_plain)
       Sample.fs_primary_only
  = inr (VList [VDict [("word", VInt 1)]]).
Proof.
  apply (load_json_returns_iff JsonLite.json_load Sample.fs_primary_only
           Sample.ja_plain Sample.words_ja _ eq_refl).
  exists Sample.one_word. repeat split.
Defined.

(** X2: whatever [load_json] returns is a non-empty list whose first entry
    is a dict, as are all of its first ten entries. *)
Theorem load_json_result_shape
  (json_load : decoder) (fs : filesystem) (self : WordLoader.t) (data : value) :
  eval (WordLoader.load_json json_load self) fs = inr data ->
  exists first rest,
    data = VList (first :: rest)
    /\ is_dict first = true
    /\ forallb is_dict (firstn 10 (first :: rest)) = true.
Proof.
  destruct (eval (WordLoader._get_target_path self) fs) as [e | target] eqn:Ht.
  { destruct (load_json_unresolved json_load fs self e Ht) as [-> _].
    discriminate. }
  rewrite (load_json_eval json_load fs self target Ht).
  destruct (exists_answer fs target) as [e | [|]]; try discriminate.
  destruct (open_answer fs target) as [e | text]; try discriminate.
  destruct (json_load text) as [e | data']; try discriminate.
  destruct (WordLoader.validate_data data') eqn:Hvalid; try discriminate.
  intros [= <-].
  destruct data' as [| | | | | items | |]; try discriminate.
  rewrite validate_data_list, firstn_min_length in Hvalid.
  apply andb_true_iff in Hvalid as [Hlen Hall].
  destruct items as [| first rest]; [discriminate |].
  exists first, rest. repeat split; [| exact Hall].
  cbn in Hall. now apply andb_true_iff in Hall as [Hfirst _].
Qed.

(** X2 on the file of ten objects and a number. *)
Lemma load_json_result_shape_witness :
  exists first rest,
    VList (repeat (VDict []) 10 ++ [VInt 7]) = VList (first :: rest)
    /\ is_dict first = true
    /\ forallb is_dict (firstn 10 (first :: rest)) = true.
Proof.
  apply (load_json_result_shape JsonLite.json_load Sample.fs_long_list
           Sample.ja_plain).
  reflexivity.
Defined.

(** X3: [load_json] opens no path but the one [_get_target_path] resolves
    to, and only when something exists there. *)
Theorem load_json_opens_only_resolved
  (json_load : decoder) (fs : filesystem) (self : WordLoader.t) (p : Path) :
  In (Open p) (trace (WordLoader.load_json json_load self) fs) ->
  eval (WordLoader._get_target_path self) fs = inr p /\ fs p <> None.
Proof.
  assert (Hresolve : ~ In (Open p) (trace (WordLoader._get_target_path self) fs)).
  { rewrite get_target_path_accesses. intros Hin.
    destruct (WordLoader.shared_words_path self) as [s |]; [| destruct Hin].
    destruct (negb (String.eqb s "")); [| destruct Hin].
    destruct Hin as [Hin | []]. discriminate. }
  destruct (eval (WordLoader._get_target_path self) fs) as [e | target] eqn:Ht.
  { destruct (load_json_unresolved json_load fs self e Ht) as [_ ->].
    intros Hin. contradiction. }
  rewrite (load_json_accesses json_load fs self target Ht). intros Hin.
  apply in_app_or in Hin as [Hin | Hin]; [contradiction |].
  destruct Hin as [Hin | Hin]; [discriminate |].
  destruct (fs target) as [n |] eqn:Hfs; [| destruct Hin].
  destruct Hin as [[= <-] | []].
  split; [reflexivity | congruence].
Qed.

(** X3 where both word lists exist: the shared one is opened, so the one of
    the language is not. *)
Lemma load_json_opens_only_resolved_witness :
  (eval (WordLoader._get_target_path Sample.ja_shared) Sample.fs_both
   = inr Sample.common_words
   /\ Sample.fs_both Sample.common_words <> None)
  /\ trace (WordLoader.load_json JsonLite.json_load Sample.ja_shared) Sample.fs_both
     = [Exists Sample.common_words; Exists Sample.common_words;
        Open Sample.common_words].
Proof.
  split; [| reflexivity].
  apply (load_json_opens_only_resolved JsonLite.json_load Sample.fs_both
           Sample.ja_shared Sample.common_words).
  cbn. right. right. left. reflexivity.
Defined.

(** X4: [_get_target_path] returns [data_path], or the shared candidate
    of a non-empty [shared_words_path] when something exists there; it
    raises only the [OSError] that [exists()] raises on that candidate, a
    lookup that fails with an error number [exists()] does not ignore. *)
Theorem get_target_path_cases (fs : filesystem) (self : WordLoader.t) :
  (exists target,
      eval (WordLoader._get_target_path self) fs = inr target
      /\ (target = WordLoader.data_path self
          \/ exists s,
              WordLoader.shared_words_path self = Some s
              /\ s <> ""
              /\ target = WordLoader.shared_candidate self s
              /\ fs target <> None))
  \/ (exists s errno,
         WordLoader.shared_words_path self = Some s
         /\ s <> ""
         /\ answer fs (WordLoader.shared_candidate self s) = StatError errno
         /\ ignored_errno errno = false
         /\ eval (WordLoader._get_target_path self) fs = inl (OSError errno)).
Proof.
  rewrite get_target_path_eval.
  destruct (WordLoader.shared_words_path self) as [s |]; [| left; eauto].
  destruct (String.eqb_spec s "") as [-> | Hne]; cbn [negb]; [left; eauto |].
  destruct (exists_answer fs (WordLoader.shared_candidate self s))
    as [e | [|]] eqn:Hexists.
  - right. apply exists_answer_raises in Hexists
      as (_ & errno & Hanswer & Hignored & ->).
    exists s, errno. auto.
  - left. eexists. split; [reflexivity |]. right. exists s.
    apply exists_answer_true in Hexists as [n Hn].
    repeat split; try assumption. congruence.
  - left. eauto.
Qed.

(** X5: a [shared_words_path] that starts with a slash is taken as it is:
    when something exists there it is the resolved path, whatever
    [data_path] is. *)
Theorem absolute_shared_path_ignores_data_path
  (fs : filesystem) (data_path : Path) (s : string) (n : node) :
  fs (parse_path (String "/" s)) = Some n ->
  eval (WordLoader._get_target_path
          (WordLoader.mk data_path (Some (String "/" s)))) fs
  = inr (parse_path (String "/" s)).
Proof.
  intros Hfs. rewrite get_target_path_eval. cbn [WordLoader.shared_words_path].
  assert (Hcand : WordLoader.shared_candidate
                    (WordLoader.mk data_path (Some (String "/" s)))
                    (String "/" s)
                  = parse_path (String "/" s)).
  { unfold WordLoader.shared_candidate, joinpath, parse_path, splitroot.
    cbn [leading_seps Ascii.eqb Bool.eqb].
    destruct (leading_seps s) as [| [| k]]; reflexivity. }
  now rewrite Hcand, (exists_answer_found _ _ _ Hfs).
Qed.

(** X5 with a word list under [/srv]. *)
Lemma absolute_shared_path_ignores_data_path_witness :
  eval (WordLoader._get_target_path
          (WordLoader.mk Sample.words_ja (Some "/srv/common.json")))
       (Sample.disk [(parse_path "/srv/common.json", File "[{}]")])
  = inr (parse_path "/srv/common.json").
Proof.
  apply (absolute_shared_path_ignores_data_path
           (Sample.disk [(parse_path "/srv/common.json", File "[{}]")])
           Sample.words_ja "srv/common.json" (File "[{}]")).
  reflexivity.
Defined.

(** X6: [validate_data] looks at no entry after the tenth: a list and its
    first ten entries get the same verdict. *)
Theorem validate_data_only_first_ten (items : list value) :
  WordLoader.validate_data (VList items)
  = WordLoader.validate_data (VList (firstn 10 items)).
Proof.
  rewrite !validate_data_list, !firstn_min_length, firstn_firstn.
  cbn [Nat.min]. f_equal.
  destruct items as [| x items]; reflexivity.
Qed.

(** X7: [load_json] raises two exceptions of its own, the
    [FileNotFoundError] for a resolved path where [exists()] answers [False]
    and the [ValueError] for data that fails [validate_data]; every other
    exception is the one [exists()] raised (on the shared candidate or on
    the resolved path), the one [open] raised, or the one [json.load]
    raised. *)
Theorem load_json_errors
  (json_load : decoder) (fs : filesystem) (self : WordLoader.t) (e : exn) :
  eval (WordLoader.load_json json_load self) fs = inl e ->
  eval (WordLoader._get_target_path self) fs = inl e
  \/ exists target,
      eval (WordLoader._get_target_path self) fs = inr target
      /\ (exists_answer fs target = inl e
          \/ (is_absent fs target = true
              /\ e = FileNotFoundError ("词库文件不存在: " ++ path_str target))
          \/ (exists_answer fs target = inr true
              /\ open_answer fs target = inl e)
          \/ (exists text de,
                fs target = Some (File text)
                /\ json_load text = inl de
                /\ e = exn_of_decode_error de)
          \/ (exists text data,
                fs target = Some (File text)
                /\ json_load text = inr data
                /\ WordLoader.validate_data data = false
                /\ e = ValueError ("词库数据格式无效: "
                                    ++ path_str (WordLoader.data_path self)))).
Proof.
  destruct (eval (WordLoader._get_target_path self) fs) as [e0 | target] eqn:Ht.
  { destruct (load_json_unresolved json_load fs self e0 Ht) as [-> _].
    intros [= <-]. now left. }
  rewrite (load_json_eval json_load fs self target Ht).
  intros He. right. exists target. split; [reflexivity |].
  destruct (exists_answer fs target) as [e1 | [|]] eqn:Hexists.
  - injection He as <-. now left.
  - destruct (open_answer fs target) as [e1 | text] eqn:Hopen.
    + injection He as <-. right. right. left. now split.
    + apply open_answer_text in Hopen.
      destruct (json_load text) as [de | data] eqn:Hdata.
      * injection He as <-. right. right. right. left. now exists text, de.
      * destruct (WordLoader.validate_data data) eqn:Hvalid; [discriminate |].
        injection He as <-. right. right. right. right. now exists text, data.
  - injection He as <-. right. left. split; [| reflexivity].
    now apply is_absent_answer.
Qed.

(** X7 where the shared name has 300 bytes: the [OSError] is the one
    [exists()] raised on the shared candidate. *)
Lemma load_json_errors_witness :
  eval (WordLoader._get_target_path Sample.ja_long_shared) Sample.fs_primary_only
  = inl (OSError ENAMETOOLONG)
  \/ exists target,
      eval (WordLoader._get_target_path Sample.ja_long_shared)
           Sample.fs_primary_only = inr target
      /\ (exists_answer Sample.fs_primary_only target = inl (OSError ENAMETOOLONG)
          \/ (is_absent Sample.fs_primary_only target = true
              /\ OSError ENAMETOOLONG
                 = FileNotFoundError ("词库文件不存在: " ++ path_str target))
          \/ (exists_answer Sample.fs_primary_only target = inr true
              /\ open_answer Sample.fs_primary_only target
                 = inl (OSError ENAMETOOLONG))
          \/ (exists text de,
                Sample.fs_primary_only target = Some (File text)
                /\ JsonLite.json_load text = inl de
                /\ OSError ENAMETOOLONG = exn_of_decode_error de)
          \/ (exists text data,
                Sample.fs_primary_only target = Some (File text)
                /\ JsonLite.json_load text = inr data
                /\ WordLoader.validate_data data = false
                /\ OSError ENAMETOOLONG
                   = ValueError ("词库数据格式无效: "
                                 ++ path_str (WordLoader.data_path
                                                Sample.ja_long_shared)))).
Proof.
  apply (load_json_errors JsonLite.json_load Sample.fs_primary_only
           Sample.ja_long_shared).
  vm_compute. reflexivity.
Defined.

(** ** The configuration loader, further *)

(** X8: a config file whose JSON is not an object (an array, a string, a
    number, [null]) makes [from_json] raise [TypeError]. *)
Theorem from_json_refuses_non_object
  (json_load : decoder) (fs : filesystem) (config_path : Path)
  (text : string) (data : value) :
  fs config_path = Some (File text) ->
  json_load text = inr data ->
  is_dict data = false ->
  eval (LanguageConfig.from_json json_load config_path) fs = inl TypeError.
Proof.
  intros Hfile Hdata Hd.
  rewrite (from_json_of_file _ _ _ _ Hfile), Hdata.
  now apply construct_needs_dict.
Qed.

(** X8 on an array that holds the three names [from_json] looks for. *)
Lemma from_json_refuses_non_object_witness :
  eval (LanguageConfig.from_json JsonLite.json_load Sample.config_ja)
       (Sample.fs_config
          ("[" ++ Sample.quoted "theme_colors" ++ ", "
           ++ Sample.quoted "level_filter" ++ ", "
           ++ Sample.quoted "shared_words_path" ++ "]"))
  = inl TypeError.
Proof.
  eapply (from_json_refuses_non_object JsonLite.json_load _ _ _
           (VList [VStr "theme_colors"; VStr "level_filter";
                   VStr "shared_words_path"]));
    reflexivity.
Defined.

(** X9: from a JSON object, [from_json] returns a record exactly when the
    object has the four required fields and no key that is not a field; it
    raises [TypeError] on every other object. *)
Theorem from_json_returns_iff_well_formed
  (json_load : decoder) (fs : filesystem) (config_path : Path)
  (text : string) (d : Dict.t) :
  fs config_path = Some (File text) ->
  json_load text = inr (VDict d) ->
  ((exists r, eval (LanguageConfig.from_json json_load config_path) fs = inr r)
   <-> LanguageConfig.well_formed d = true)
  /\ (LanguageConfig.well_formed d = false ->
      eval (LanguageConfig.from_json json_load config_path) fs = inl TypeError).
Proof.
  intros Hfile Hdata. rewrite (from_json_of_file _ _ _ _ Hfile), Hdata.
  split; [split |].
  - intros [r Hr].
    destruct (LanguageConfig.well_formed d) eqn:Hwf; [reflexivity |].
    rewrite (construct_refuses_ill_formed d Hwf) in Hr. discriminate.
  - intros Hwf.
    destruct (construct_after_defaults d Hwf) as (r & Hr & _). eauto.
  - apply construct_refuses_ill_formed.
Qed.

(** X9 on a config with a key that is not a field. *)
Lemma from_json_returns_iff_well_formed_witness :
  eval (LanguageConfig.from_json JsonLite.json_load Sample.config_ja)
       (Sample.fs_config
          ("{" ++ Sample.required_part ++ ", " ++ Sample.quoted "colour" ++ ": 1}"))
  = inl TypeError.
Proof.
  destruct (from_json_returns_iff_well_formed JsonLite.json_load
              (Sample.fs_config
                 ("{" ++ Sample.required_part ++ ", "
                  ++ Sample.quoted "colour" ++ ": 1}"))
              Sample.config_ja
              ("{" ++ Sample.required_part ++ ", "
               ++ Sample.quoted "colour" ++ ": 1}")
              [("lang_id", VStr "ja"); ("lang_name", VStr "Japanese");
               ("fonts", VDict []); ("styles", VDict []); ("colour", VInt 1)]
              eq_refl eq_refl)
    as [_ Hrefused].
  apply Hrefused. reflexivity.
Defined.

(** X10: [from_json] stores the fields the document gives as they are: the
    required ones, and the optional ones that are present, a JSON [null]
    included; only a [card_size] that is a list is converted. *)
Theorem from_json_keeps_given_fields
  (json_load : decoder) (fs : filesystem) (config_path : Path)
  (text : string) (d : Dict.t) :
  fs config_path = Some (File text) ->
  json_load text = inr (VDict d) ->
  LanguageConfig.well_formed d = true ->
  exists r,
    eval (LanguageConfig.from_json json_load config_path) fs = inr r
    /\ Dict.get "lang_id" d = Some (LanguageConfig.lang_id r)
    /\ Dict.get "lang_name" d = Some (LanguageConfig.lang_name r)
    /\ Dict.get "fonts" d = Some (LanguageConfig.fonts r)
    /\ Dict.get "styles" d = Some (LanguageConfig.styles r)
    /\ (forall v, Dict.get "theme_colors" d = Some v ->
                  LanguageConfig.theme_colors r = v)
    /\ (forall v, Dict.get "level_filter" d = Some v ->
                  LanguageConfig.level_filter r = v)
    /\ (forall v, Dict.get "shared_words_path" d = Some v ->
                  LanguageConfig.shared_words_path r = v)
    /\ (forall v, Dict.get "card_size" d = Some v ->
                  is_list v = false ->
                  LanguageConfig.card_size r = v).
Proof.
  intros Hfile Hdata Hwf.
  destruct (construct_after_defaults d Hwf)
    as (r & Hr & Hi & Hn & Hf & Hs & Hcs & Htc & Hlf & Hsw).
  exists r. rewrite (from_json_of_file _ _ _ _ Hfile), Hdata.
  repeat split; try assumption.
  - intros v Hv. now rewrite Htc, Hv.
  - intros v Hv. now rewrite Hlf, Hv.
  - intros v Hv. now rewrite Hsw, Hv.
  - intros v Hv Hnl. rewrite Hcs, Hv. now destruct v.
Qed.

(** X10 on a config whose [level_filter] is [null] and whose [card_size] is
    a string. *)
Lemma from_json_keeps_given_fields_witness :
  exists r,
    eval (LanguageConfig.from_json JsonLite.json_load Sample.config_ja)
         (Sample.fs_config
            ("{" ++ Sample.required_part ++ ", "
             ++ Sample.quoted "level_filter" ++ ": null, "
             ++ Sample.quoted "card_size" ++ ": " ++ Sample.quoted "big" ++ "}"))
    = inr r
    /\ LanguageConfig.lang_id r = VStr "ja"
    /\ LanguageConfig.level_filter r = VNone
    /\ LanguageConfig.card_size r = VStr "big".
Proof.
  destruct (from_json_keeps_given_fields JsonLite.json_load
              (Sample.fs_config
                 ("{" ++ Sample.required_part ++ ", "
                  ++ Sample.quoted "level_filter" ++ ": null, "
                  ++ Sample.quoted "card_size" ++ ": " ++ Sample.quoted "big" ++ "}"))
              Sample.config_ja
              ("{" ++ Sample.required_part ++ ", "
               ++ Sample.quoted "level_filter" ++ ": null, "
               ++ Sample.quoted "card_size" ++ ": " ++ Sample.quoted "big" ++ "}")
              [("lang_id", VStr "ja"); ("lang_name", VStr "Japanese");
               ("fonts", VDict []); ("styles", VDict []);
               ("level_filter", VNone); ("card_size", VStr "big")]
              eq_refl eq_refl eq_refl)
    as (r & Hr & Hi & _ & _ & _ & _ & Hlf & _ & Hcs).
  exists r. split; [exact Hr |]. split; [| split].
  - cbn in Hi. now injection Hi as ->.
  - now apply Hlf.
  - now apply Hcs.
Defined.

(** X11: [to_dict] gives back what [from_json] read: for a document whose
    [card_size], if present, is a list, each of the six keys of [to_dict]
    that the document binds is bound to the same value, the list of
    [card_size] included. *)
Theorem to_dict_after_from_json
  (json_load : decoder) (fs : filesystem) (config_path : Path)
  (text : string) (d : Dict.t) :
  fs config_path = Some (File text) ->
  json_load text = inr (VDict d) ->
  LanguageConfig.well_formed d = true ->
  (forall v, Dict.get "card_size" d = Some v -> is_list v = true) ->
  exists r d',
    eval (LanguageConfig.from_json json_load config_path) fs = inr r
    /\ LanguageConfig.to_dict r = inr (VDict d')
    /\ (forall k v,
          In k ["lang_id"; "lang_name"; "fonts"; "styles";
                "card_size"; "theme_colors"] ->
          Dict.get k d = Some v ->
          Dict.get k d' = Some v)
    /\ (Dict.get "card_size" d = None ->
        Dict.get "card_size" d' = Some (VList [VInt 432; VInt 540])).
Proof.
  intros Hfile Hdata Hwf Hlist.
  destruct (construct_after_defaults d Hwf)
    as (r & Hr & Hi & Hn & Hf & Hs & Hcs & Htc & _).
  assert (Hsize : exists size,
             LanguageConfig.card_size r = VTuple size
             /\ (forall v, Dict.get "card_size" d = Some v -> v = VList size)
             /\ (Dict.get "card_size" d = None -> size = [VInt 432; VInt 540])).
  { destruct (Dict.get "card_size" d) as [v |] eqn:Hv.
    - specialize (Hlist v eq_refl).
      destruct v as [| | | | | items | |]; try discriminate.
      exists items. repeat split; [exact Hcs | congruence | discriminate].
    - exists [VInt 432; VInt 540]. repeat split; [exact Hcs | discriminate]. }
  destruct Hsize as (size & Hsize & Hgiven & Habsent).
  exists r. eexists.
  rewrite (from_json_of_file _ _ _ _ Hfile), Hdata.
  split; [exact Hr |].
  unfold LanguageConfig.to_dict. rewrite Hsize.
  split; [reflexivity | split].
  - intros k v Hk Hv. cbn in Hk.
    destruct Hk as [<- | [<- | [<- | [<- | [<- | [<- | []]]]]]]; cbn.
    + congruence.
    + congruence.
    + congruence.
    + congruence.
    + now rewrite (Hgiven v Hv).
    + now rewrite Htc, Hv.
  - intros Hnone. cbn. now rewrite (Habsent Hnone).
Qed.

(** X11 on the config whose [card_size] is [[300, 400]]. *)
Lemma to_dict_after_from_json_witness :
  exists r d',
    eval (LanguageConfig.from_json JsonLite.json_load Sample.config_ja)
         (Sample.fs_config Sample.config_pair) = inr r
    /\ LanguageConfig.to_dict r = inr (VDict d')
    /\ Dict.get "card_size" d' = Some (VList [VInt 300; VInt 400])
    /\ Dict.get "lang_id" d' = Some (VStr "ja").
Proof.
  destruct (to_dict_after_from_json JsonLite.json_load
              (Sample.fs_config Sample.config_pair) Sample.config_ja
              Sample.config_pair
              [("lang_id", VStr "ja"); ("lang_name", VStr "Japanese");
               ("fonts", VDict []); ("styles", VDict []);
               ("card_size", VList [VInt 300; VInt 400])]
              eq_refl eq_refl eq_refl)
    as (r & d' & Hr & Hd & Hsame & _).
  - intros v [= <-]. reflexivity.
  - exists r, d'. repeat split; try assumption.
    + apply Hsame; [cbn; tauto | reflexivity].
    + apply Hsame; [cbn; tauto | reflexivity].
Defined.

(** X12: a [card_size] that cannot be listed (a number, a boolean, [null])
    passes [from_json] unchanged, and [to_dict] of the record then raises
    [TypeError]. *)
Theorem scalar_card_size_fails_in_to_dict
  (json_load : decoder) (fs : filesystem) (config_path : Path)
  (text : string) (d : Dict.t) (v : value) :
  fs config_path = Some (File text) ->
  json_load text = inr (VDict d) ->
  LanguageConfig.well_formed d = true ->
  Dict.get "card_size" d = Some v ->
  py_list v = inl TypeError ->
  exists r,
    eval (LanguageConfig.from_json json_load config_path) fs = inr r
    /\ LanguageConfig.card_size r = v
    /\ LanguageConfig.to_dict r = inl TypeError.
Proof.
  intros Hfile Hdata Hwf Hv Hscalar.
  destruct (construct_after_defaults d Hwf)
    as (r & Hr & _ & _ & _ & _ & Hcs & _).
  exists r. rewrite (from_json_of_file _ _ _ _ Hfile), Hdata.
  assert (Hsame : LanguageConfig.card_size r = v).
  { rewrite Hcs, Hv. now destruct v. }
  split; [exact Hr | split; [exact Hsame |]].
  unfold LanguageConfig.to_dict. now rewrite Hsame, Hscalar.
Qed.

(** X12 on a config whose [card_size] is the number 5. *)
Lemma scalar_card_size_fails_in_to_dict_witness :
  exists r,
    eval (LanguageConfig.from_json JsonLite.json_load Sample.config_ja)
         (Sample.fs_config
            ("{" ++ Sample.required_part ++ ", "
             ++ Sample.quoted "card_size" ++ ": 5}")) = inr r
    /\ LanguageConfig.card_size r = VInt 5
    /\ LanguageConfig.to_dict r = inl TypeError.
Proof.
  eapply (scalar_card_size_fails_in_to_dict JsonLite.json_load _ _ _
           [("lang_id", VStr "ja"); ("lang_name", VStr "Japanese");
            ("fonts", VDict []); ("styles", VDict []);
            ("card_size", VInt 5)]);
    reflexivity.
Defined.

(** X13: a record built again from its own [to_dict] keeps [lang_id],
    [lang_name], [fonts], [styles] and [theme_colors], has [card_size] as a
    list instead of a tuple, and has [level_filter] and [shared_words_path]
    back at their defaults. *)
Theorem construct_of_to_dict (self : LanguageConfig.t) (size : list value) :
  py_list (LanguageConfig.card_size self) = inr size ->
  bind (LanguageConfig.to_dict self) LanguageConfig.construct
  = inr (LanguageConfig.mk
           (LanguageConfig.lang_id self) (LanguageConfig.lang_name self)
           (LanguageConfig.fonts self) (LanguageConfig.styles self)
           (VList size) (LanguageConfig.theme_colors self)
           (VStr "all") VNone).
Proof.
  intros Hsize. unfold LanguageConfig.to_dict. now rewrite Hsize.
Qed.

(** X13 on a record with a level filter and a shared word list. *)
Lemma construct_of_to_dict_witness :
  bind (LanguageConfig.to_dict
          (LanguageConfig.mk (VStr "ja") (VStr "Japanese") (VDict []) (VDict [])
             (VTuple [VInt 432; VInt 540]) (VList [])
             (VStr "N5") (VStr "shared/common_words.json")))
       LanguageConfig.construct
  = inr (LanguageConfig.mk (VStr "ja") (VStr "Japanese") (VDict []) (VDict [])
           (VList [VInt 432; VInt 540]) (VList []) (VStr "all") VNone).
Proof.
  apply (construct_of_to_dict
           (LanguageConfig.mk (VStr "ja") (VStr "Japanese") (VDict []) (VDict [])
              (VTuple [VInt 432; VInt 540]) (VList [])
              (VStr "N5") (VStr "shared/common_words.json"))
           [VInt 432; VInt 540]).
  reflexivity.
Defined.

(** X14: [from_json] asks the filesystem about [config_path] alone: whether
    it exists and, if so, for its contents. *)
Theorem from_json_touches_only_config_path
  (json_load : decoder) (fs : filesystem) (config_path : Path) :
  trace (LanguageConfig.from_json json_load config_path) fs
  = Exists config_path
    :: match fs config_path with
       | Some _ => [Open config_path]
       | None => []
       end.
Proof.
  unfold LanguageConfig.from_json.
  rewrite trace_bind, eval_path_exists, trace_path_exists.
  destruct (exists_answer fs config_path) as [e | [|]] eqn:Hexists.
  - apply exists_answer_raises in Hexists as [-> _]. reflexivity.
  - cbn [negb]. apply exists_answer_true in Hexists as [n ->].
    cbn [app]. f_equal.
    rewrite trace_bind, eval_open_read, trace_open_read.
    destruct (open_answer fs config_path) as [e | text]; [reflexivity |].
    cbn [app]. f_equal.
    rewrite trace_bind. unfold run_decoder. rewrite eval_lift.
    now destruct (json_load text).
  - cbn [negb]. apply is_absent_answer, absent_not_found in Hexists.
    now rewrite Hexists.
Qed.

(** X15: once the config file is read and decoded, [from_json] returns a
    record or raises [TypeError], whatever JSON value the file holds; the
    lookup of [card_size] is guarded by the membership test and raises no
    [KeyError]. *)
Theorem from_json_after_decoding
  (json_load : decoder) (fs : filesystem) (config_path : Path)
  (text : string) (data : value) :
  fs config_path = Some (File text) ->
  json_load text = inr data ->
  (exists r, eval (LanguageConfig.from_json json_load config_path) fs = inr r)
  \/ eval (LanguageConfig.from_json json_load config_path) fs = inl TypeError.
Proof.
  intros Hfile Hdata.
  rewrite (from_json_of_file _ _ _ _ Hfile), Hdata.
  destruct (bind (LanguageConfig.apply_defaults data) LanguageConfig.construct)
    as [e | r] eqn:He.
  - right. now rewrite (construct_errors data e He).
  - left. now exists r.
Qed.

(** X15 on a config without the required fields. *)
Lemma from_json_after_decoding_witness :
  (exists r,
      eval (LanguageConfig.from_json JsonLite.json_load Sample.config_ja)
           (Sample.fs_config "{}") = inr r)
  \/ eval (LanguageConfig.from_json JsonLite.json_load Sample.config_ja)
          (Sample.fs_config "{}") = inl TypeError.
Proof.
  apply (from_json_after_decoding JsonLite.json_load (Sample.fs_config "{}")
           Sample.config_ja "{}" (VDict []));
    reflexivity.
Defined.
